(** * LED controller backend (app.py): state store, validation, handlers

    A shallow embedding of [app.py] and a verification of its behaviour.

    The program keeps one JSON record (colour, count, revision, time stamp)
    in [data/state.json].  [load_state] reads it and heals it, [validate_state]
    checks a candidate colour and count, [atomic_write] replaces the file
    through a temporary file, and the Flask handlers [get_state], [set_state]
    and [health] sit on top.

    Layout of the development:
    - Python values (what [json] produces), exceptions, Python's [int()],
      truthiness, a small regular-expression matcher for [re.match];
    - the file system and the clock as explicit state, a state-and-exception
      monad for the effectful functions;
    - the functions of [app.py], one definition per source function;
    - the theorems.

    Conventions.  A Python [str] is a Rocq [string] holding its UTF-8
    encoding.  A Python [int] is a [Z].  A Python [float] is a [spec_float].
    A Python [dict] with string keys is a [gmap string json] (dict equality
    ignores insertion order).  The text of a JSON document is kept as the
    value it parses to ([JsonText]), or as raw bytes when [json] rejects it
    ([NotJson]); [json.dumps] refuses integers of more than 4300 digits,
    and what it writes [json.load] reads back unchanged. *)

From Stdlib Require Import ZArith NArith String Ascii List Bool Lia.
From Stdlib Require Import Floats.SpecFloat.
From stdpp Require Import gmap strings pretty.

Set Warnings "-register-all".

Local Open Scope string_scope.
Local Open Scope Z_scope.

(* ===================================================================== *)
(** ** Python values *)
(* ===================================================================== *)

(** The values [json.load] and [request.get_json] can produce. *)
Inductive json :=
| JNull
| JBool (b : bool)
| JInt (n : Z)
| JFloat (f : spec_float)
| JStr (s : string)
| JArr (l : list json)
| JObj (m : gmap string json).

(** The exception classes that occur.  [JSONDecodeError] is a subclass of
    [ValueError]; all of them are subclasses of [Exception]. *)
Inductive exn :=
| OSError
| ValueError
| TypeError
| OverflowError
| AttributeError
| JSONDecodeError.

Definition is_OSError (e : exn) : bool :=
  match e with OSError => true | _ => false end.

(** Outcome of evaluating a Python expression. *)
Inductive result (A : Type) :=
| Return (a : A)
| Raise (e : exn).
Arguments Return {A} a.
Arguments Raise {A} e.

(** [bool(v)], as used by [x or {}]. *)
Definition truthy (v : json) : bool :=
  match v with
  | JNull => false
  | JBool b => b
  | JInt n => negb (n =? 0)
  | JFloat (S754_zero _) => false
  | JFloat _ => true
  | JStr s => negb (String.eqb s "")
  | JArr l => match l with [] => false | _ => true end
  | JObj m => negb (bool_decide (m = ∅))
  end.

(** [isinstance(v, str)]. *)
Definition isinstance_str (v : json) : bool :=
  match v with JStr _ => true | _ => false end.

(* ===================================================================== *)
(** ** Python's [int()] *)
(* ===================================================================== *)

Module Utf8.

(** Continuation byte [10xxxxxx]. *)
Definition is_cont (b : N) : bool := ((128 <=? b) && (b <? 192))%N.

(** Code points of a UTF-8 byte string; [None] when the bytes are not the
    encoding of any [str] (stray or missing continuation bytes, overlong
    forms, values above U+10FFFF). *)
Fixpoint decode (s : string) : option (list N) :=
  match s with
  | EmptyString => Some []
  | String a0 r0 =>
    let b0 := N_of_ascii a0 in
    if (b0 <? 128)%N then cons b0 <$> decode r0
    else if (b0 <? 192)%N then None
    else if (b0 <? 224)%N then
      match r0 with
      | String a1 r1 =>
        let b1 := N_of_ascii a1 in
        let c := ((b0 - 192) * 64 + (b1 - 128))%N in
        if is_cont b1 && (128 <=? c)%N then cons c <$> decode r1 else None
      | _ => None
      end
    else if (b0 <? 240)%N then
      match r0 with
      | String a1 (String a2 r2) =>
        let b1 := N_of_ascii a1 in
        let b2 := N_of_ascii a2 in
        let c := ((b0 - 224) * 4096 + (b1 - 128) * 64 + (b2 - 128))%N in
        if is_cont b1 && is_cont b2 && (2048 <=? c)%N
        then cons c <$> decode r2 else None
      | _ => None
      end
    else if (b0 <? 248)%N then
      match r0 with
      | String a1 (String a2 (String a3 r3)) =>
        let b1 := N_of_ascii a1 in
        let b2 := N_of_ascii a2 in
        let b3 := N_of_ascii a3 in
        let c := ((b0 - 240) * 262144 + (b1 - 128) * 4096
                  + (b2 - 128) * 64 + (b3 - 128))%N in
        if is_cont b1 && is_cont b2 && is_cont b3
           && (65536 <=? c)%N && (c <=? 1114111)%N
        then cons c <$> decode r3 else None
      | _ => None
      end
    else None
  end.

End Utf8.

Module PyLong.

(** [Py_UNICODE_ISSPACE] above ASCII (the ASCII range never reaches this
    test in [_PyUnicode_TransformDecimalAndSpaceToASCII]). *)
Definition unicode_space : list N :=
  [133; 160; 5760; 8192; 8193; 8194; 8195; 8196; 8197; 8198; 8199; 8200;
   8201; 8202; 8232; 8233; 8239; 8287; 12288]%N.

(** [Py_UNICODE_TODECIMAL] above ASCII: the blocks of decimal digits of the
    Unicode database (version 14.0, the one of CPython 3.11), each given by
    the code point of its zero and its length; inside a block the digit
    value is the offset modulo ten. *)
Definition unicode_decimal_blocks : list (N * N) :=
  [(1632, 10); (1776, 10); (1984, 10); (2406, 10); (2534, 10); (2662, 10);
   (2790, 10); (2918, 10); (3046, 10); (3174, 10); (3302, 10); (3430, 10);
   (3558, 10); (3664, 10); (3792, 10); (3872, 10); (4160, 10); (4240, 10);
   (6112, 10); (6160, 10); (6470, 10); (6608, 10); (6784, 10); (6800, 10);
   (6992, 10); (7088, 10); (7232, 10); (7248, 10); (42528, 10); (43216, 10);
   (43264, 10); (43472, 10); (43504, 10); (43600, 10); (44016, 10);
   (65296, 10); (66720, 10); (68912, 10); (69734, 10); (69872, 10);
   (69942, 10); (70096, 10); (70384, 10); (70736, 10); (70864, 10);
   (71248, 10); (71360, 10); (71472, 10); (71904, 10); (72016, 10);
   (72784, 10); (73040, 10); (73120, 10); (92768, 10); (92864, 10);
   (93008, 10); (120782, 50); (123200, 10); (123632, 10); (125264, 10);
   (130032, 10)]%N.

Definition Py_UNICODE_ISSPACE (c : N) : bool :=
  existsb (N.eqb c) unicode_space.

Definition Py_UNICODE_TODECIMAL (c : N) : option N :=
  match find (fun b => (fst b <=? c) && (c <? fst b + snd b))%N
             unicode_decimal_blocks with
  | Some b => Some ((c - fst b) mod 10)%N
  | None => None
  end.

(** [_PyUnicode_TransformDecimalAndSpaceToASCII]: ASCII is kept, other
    white space becomes a blank, other decimal digits become ASCII digits;
    any other character makes the literal invalid. *)
Fixpoint transform (cs : list N) : option (list N) :=
  match cs with
  | [] => Some []
  | c :: r =>
    if (c <? 127)%N then cons c <$> transform r
    else if Py_UNICODE_ISSPACE c then cons 32%N <$> transform r
    else match Py_UNICODE_TODECIMAL c with
         | Some d => cons (48 + d)%N <$> transform r
         | None => None
         end
  end.

(** [Py_ISSPACE]: blank, [\t], [\n], [\v], [\f], [\r]. *)
Definition Py_ISSPACE (c : N) : bool :=
  ((9 <=? c) && (c <=? 13) || (c =? 32))%N.

Definition is_digit (c : N) : bool := ((48 <=? c) && (c <=? 57))%N.

Fixpoint skip_space (cs : list N) : list N :=
  match cs with
  | c :: r => if Py_ISSPACE c then skip_space r else cs
  | [] => []
  end.

(** The digit loop of [PyLong_FromString] in base ten: digits, with single
    underscores between them.  Returns the value, the number of digits and
    the unread rest; [None] on a doubled or trailing underscore. *)
Fixpoint scan_digits (prev_us : bool) (acc : Z) (n : nat) (cs : list N)
  : option (Z * nat * list N) :=
  match cs with
  | c :: r =>
    if is_digit c then scan_digits false (10 * acc + (Z.of_N c - 48)) (S n) r
    else if (c =? 95)%N then
      (if prev_us then None else scan_digits true acc n r)
    else if prev_us then None else Some (acc, n, cs)
  | [] => if prev_us then None else Some (acc, n, [])
  end.

(** [sys.int_info.default_max_str_digits] (CPython 3.11 and later): longer
    digit strings are refused with [ValueError]. *)
Definition max_str_digits : nat := 4300.

(** An optional sign. *)
Definition split_sign (cs : list N) : bool * list N :=
  match cs with
  | c :: r =>
    if (c =? 43)%N then (false, r)
    else if (c =? 45)%N then (true, r)
    else (false, cs)
  | [] => (false, [])
  end.

Definition starts_with_underscore (cs : list N) : bool :=
  match cs with
  | c :: _ => (c =? 95)%N
  | [] => false
  end.

(** [PyLong_FromString(s, &end, 10)] followed by the test that the whole
    buffer was read: white space, an optional sign, the digits (at least
    one, at most [max_str_digits]), white space, and nothing else. *)
Definition from_string (cs : list N) : option Z :=
  let '(neg, ds) := split_sign (skip_space cs) in
  if starts_with_underscore ds then None
  else
    match scan_digits false 0 0 ds with
    | Some (v, n, rest) =>
      if (n =? 0)%nat then None
      else if (max_str_digits <? n)%nat then None
      else match skip_space rest with
           | [] => Some (if neg then - v else v)
           | _ => None
           end
    | None => None
    end.

(** [int(s)] for a [str]: [PyLong_FromUnicodeObject]. *)
Definition of_str (s : string) : option Z :=
  match Utf8.decode s with
  | Some cs =>
    match transform cs with
    | Some ascii_cs => from_string ascii_cs
    | None => None
    end
  | None => None
  end.

(** [int(x)] for a [float]: truncation towards zero; not-a-number and the
    infinities are refused. *)
Definition of_float (f : spec_float) : result Z :=
  match f with
  | S754_zero _ => Return 0
  | S754_finite s m e =>
    let a := Z.shiftl (Z.pos m) e in
    Return (if s then - a else a)
  | S754_nan => Raise ValueError
  | S754_infinity _ => Raise OverflowError
  end.

End PyLong.

(** [int(v)]. *)
Definition py_int (v : json) : result Z :=
  match v with
  | JInt n => Return n
  | JBool b => Return (if b then 1 else 0)
  | JFloat f => PyLong.of_float f
  | JStr s =>
    match PyLong.of_str s with
    | Some n => Return n
    | None => Raise ValueError
    end
  | JNull | JArr _ | JObj _ => Raise TypeError
  end.

(* ===================================================================== *)
(** ** Regular expressions: what [re.match] needs for [HEX_COLOR_RE] *)
(* ===================================================================== *)

(** The line feed, as a one-character string. *)
Definition LF : string := String "010" "".

Module Re.

(** One pattern element. *)
Inductive atom :=
| Bol                                     (* ^ *)
| Eol                                     (* $ *)
| Lit (c : ascii)                         (* a literal character *)
| Class (ranges : list (ascii * ascii)).  (* [a-b...] *)

(** A pattern: a sequence of elements, each with its repeat count [{n}]. *)
Definition pattern := list (atom * nat).

Definition in_range (c : ascii) (r : ascii * ascii) : bool :=
  ((N_of_ascii (fst r) <=? N_of_ascii c)
   && (N_of_ascii c <=? N_of_ascii (snd r)))%N.

(** Match one element at the current position.  [at_start] tells whether
    the position is the start of the string.  Without [re.MULTILINE], [$]
    matches at the end of the string and just before a newline that ends
    the string. *)
Definition match_atom (a : atom) (at_start : bool) (s : string)
  : option (bool * string) :=
  match a with
  | Bol => if at_start then Some (at_start, s) else None
  | Eol =>
    if String.eqb s "" || String.eqb s LF
    then Some (at_start, s) else None
  | Lit c =>
    match s with
    | String c' r => if Ascii.eqb c c' then Some (false, r) else None
    | EmptyString => None
    end
  | Class ranges =>
    match s with
    | String c' r => if existsb (in_range c') ranges then Some (false, r) else None
    | EmptyString => None
    end
  end.

Fixpoint match_repeat (a : atom) (n : nat) (at_start : bool) (s : string)
  : option (bool * string) :=
  match n with
  | O => Some (at_start, s)
  | S n' =>
    match match_atom a at_start s with
    | Some (st, r) => match_repeat a n' st r
    | None => None
    end
  end.

Fixpoint match_from (p : pattern) (at_start : bool) (s : string)
  : option string :=
  match p with
  | [] => Some s
  | (a, n) :: p' =>
    match match_repeat a n at_start s with
    | Some (st, r) => match_from p' st r
    | None => None
    end
  end.

(** [bool(p.match(s))]: the pattern matches at the start of [s]. *)
Definition matches (p : pattern) (s : string) : bool :=
  match match_from p true s with Some _ => true | None => false end.

End Re.

(* ===================================================================== *)
(** ** app.py: constants and validation *)
(* ===================================================================== *)

(** [re.compile(r"^#[0-9a-fA-F]{6}$")] *)
Definition HEX_COLOR_RE : Re.pattern :=
  [(Re.Bol, 1%nat);
   (Re.Lit "#", 1%nat);
   (Re.Class [("0", "9"); ("a", "f"); ("A", "F")]%char, 6%nat);
   (Re.Eol, 1%nat)].

Definition LED_MIN : Z := 0.
Definition LED_MAX : Z := 8.

Definition msg_color : string := "color inválido — usa formato #RRGGBB".
Definition msg_count_int : string := "count debe ser un número entero".
Definition msg_count_range : string :=
  "count inválido — debe estar entre " +:+ pretty LED_MIN +:+ " y " +:+ pretty LED_MAX.

(** [HEX_COLOR_RE.match(color)].  The source evaluates it only when
    [color] is a [str] (the [or] before it short-circuits); on other values
    this is [false]. *)
Definition color_matches (color : json) : bool :=
  match color with
  | JStr s => Re.matches HEX_COLOR_RE s
  | _ => false
  end.

Definition validate_state (color count : json) : bool * string :=
  if negb (isinstance_str color) || negb (color_matches color) then
    (false, msg_color)
  else
    match py_int count with
    | Raise _ => (false, msg_count_int)
    | Return n =>
      if negb ((LED_MIN <=? n) && (n <=? LED_MAX)) then (false, msg_count_range)
      else (true, "")
    end.

(* ===================================================================== *)
(** ** The file system, the clock, and the monad of effects *)
(* ===================================================================== *)

(** The files of [DATA_DIR]: [state.json], and the temporary files
    [state_<k>.tmp] that [tempfile.mkstemp] creates there.  A temporary name
    never coincides with [state.json]. *)
Inductive path :=
| StateJson
| Tmp (k : nat).

#[global] Instance path_eq_dec : EqDecision path.
Proof. solve_decision. Defined.

#[global] Instance path_countable : Countable path :=
  inj_countable'
    (fun p => match p with StateJson => None | Tmp k => Some k end)
    (fun o => match o with None => StateJson | Some k => Tmp k end)
    (fun p => match p with StateJson => eq_refl | Tmp _ => eq_refl end).

(** What a file holds, seen through [json.load]: a document that parses to
    [v], or bytes that [json.load] rejects (an empty or truncated file, bytes
    that are not UTF-8, ...).  [json.load] raises [ValueError] on an integer
    literal of more than 4300 digits, so a document with one is among the
    rejected; the worlds whose state file respects this are the
    [storage_parsable] ones below. *)
Inductive text :=
| JsonText (v : json)
| NotJson (raw : string).

(** The integers [json] can write and read: converting between [int] and
    decimal text is limited to [PyLong.max_str_digits] digits, the sign not
    counted, so the magnitude must be below [10 ^ 4300]. *)
Definition int_limit : Z := 10 ^ Z.of_nat PyLong.max_str_digits.

(** The values [json.dumps] accepts: every integer in them, at any depth,
    is within the limit.  (Floats, not-a-number included, strings, booleans
    and [None] are always accepted.) *)
Fixpoint serialisable (v : json) : bool :=
  match v with
  | JInt n => Z.abs n <? int_limit
  | JArr l => forallb serialisable l
  | JObj m => map_fold (fun _ x acc => serialisable x && acc) true m
  | JNull | JBool _ | JFloat _ | JStr _ => true
  end.

(** [json.dumps(v)]: raises [ValueError] on an integer beyond the limit. *)
Definition json_dumps (v : json) : result text :=
  if serialisable v then Return (JsonText v) else Raise ValueError.

(** [json.load(f)] on the text read from [f]. *)
Definition json_load (t : text) : result json :=
  match t with
  | JsonText v => Return v
  | NotJson _ => Raise JSONDecodeError
  end.

(** The mutable world: the directory's files and the number of clock
    readings taken so far. *)
Record world := World { files : gmap path text; ticks : nat }.

(** The operating-system calls that can fail with [OSError]. *)
Inductive syscall := Makedirs | Mkstemp | Write | Replace | Remove | Open.

(** What the program does not control: the readings of the clock and which
    system calls the operating system refuses. *)
Record env := Env { clock : nat -> string; fails : syscall -> bool }.

(** State and exceptions. *)
Definition M (A : Type) : Type := env -> world -> result A * world.

Definition ret {A} (a : A) : M A := fun _ w => (Return a, w).

Definition raise {A} (x : exn) : M A := fun _ w => (Raise x, w).

Definition bind {A B} (m : M A) (k : A -> M B) : M B :=
  fun e w =>
    match m e w with
    | (Return a, w') => k a e w'
    | (Raise x, w') => (Raise x, w')
    end.

Definition lift {A} (r : result A) : M A := fun _ w => (r, w).

Notation "'let*' x ':=' m 'in' k" := (bind m (fun x => k))
  (at level 10, x name, m at level 100, k at level 200).
Notation "m >> k" := (bind m (fun _ => k))
  (at level 60, right associativity).

(** [try: body  except Exception: handler] *)
Definition try_except {A} (body handler : M A) : M A :=
  fun e w =>
    match body e w with
    | (Return a, w') => (Return a, w')
    | (Raise _, w') => handler e w'
    end.

(** [try: body  except OSError: handler] *)
Definition try_except_OSError {A} (body handler : M A) : M A :=
  fun e w =>
    match body e w with
    | (Return a, w') => (Return a, w')
    | (Raise x, w') => if is_OSError x then handler e w' else (Raise x, w')
    end.

(** [try: body  finally: cleanup]: the cleanup always runs; the outcome is
    the body's unless the cleanup itself raises. *)
Definition try_finally {A} (body : M A) (cleanup : M unit) : M A :=
  fun e w =>
    match body e w with
    | (r, w') =>
      match cleanup e w' with
      | (Return _, w'') => (r, w'')
      | (Raise x, w'') => (Raise x, w'')
      end
    end.

(** *** System calls *)

Definition tmp_index (p : path) : option nat :=
  match p with Tmp k => Some k | StateJson => None end.

(** The indices of the temporary files present. *)
Definition tmp_indices (fs : gmap path text) : gset nat :=
  set_omap tmp_index (dom fs).

(** [os.makedirs(DATA_DIR, exist_ok=True)]: no effect on the files. *)
Definition os_makedirs : M unit :=
  fun e w => if fails e Makedirs then (Raise OSError, w) else (Return tt, w).

(** [os.path.exists(p)]: never raises. *)
Definition os_path_exists (p : path) : M bool :=
  fun _ w => (Return (bool_decide (is_Some (files w !! p))), w).

(** [tempfile.mkstemp(prefix="state_", suffix=".tmp", dir=DATA_DIR)]: a new,
    empty file under a name not in use. *)
Definition mkstemp : M path :=
  fun e w =>
    if fails e Mkstemp then (Raise OSError, w)
    else
      let p := Tmp (fresh (tmp_indices (files w))) in
      (Return p, World (<[p := NotJson ""]> (files w)) (ticks w)).

(** [with os.fdopen(fd, "w") as f: f.write(t)]: a refused write leaves the
    file as it was. *)
Definition write_file (p : path) (t : text) : M unit :=
  fun e w =>
    if fails e Write then (Raise OSError, w)
    else (Return tt, World (<[p := t]> (files w)) (ticks w)).

(** [os.replace(src, dst)] *)
Definition os_replace (src dst : path) : M unit :=
  fun e w =>
    if fails e Replace then (Raise OSError, w)
    else
      match files w !! src with
      | Some t => (Return tt, World (<[dst := t]> (delete src (files w))) (ticks w))
      | None => (Raise OSError, w)
      end.

(** [os.remove(p)] *)
Definition os_remove (p : path) : M unit :=
  fun e w =>
    if fails e Remove then (Raise OSError, w)
    else
      match files w !! p with
      | Some _ => (Return tt, World (delete p (files w)) (ticks w))
      | None => (Raise OSError, w)
      end.

(** [with open(p, "r") as f: f.read()] *)
Definition read_file (p : path) : M text :=
  fun e w =>
    if fails e Open then (Raise OSError, w)
    else
      match files w !! p with
      | Some t => (Return t, w)
      | None => (Raise OSError, w)
      end.

(** *** Methods of Python values *)

(** [v.setdefault(k, d)]; returns the receiver after the call. *)
Definition dict_setdefault (v : json) (k : string) (d : json) : result json :=
  match v with
  | JObj m =>
    Return (JObj (match m !! k with Some _ => m | None => <[k := d]> m end))
  | _ => Raise AttributeError
  end.

(** [v.get(k, d)] *)
Definition dict_get (v : json) (k : string) (d : json) : result json :=
  match v with
  | JObj m => Return (default d (m !! k))
  | _ => Raise AttributeError
  end.

(** [v[k] = x]; returns the receiver after the assignment. *)
Definition dict_setitem (v : json) (k : string) (x : json) : result json :=
  match v with
  | JObj m => Return (JObj (<[k := x]> m))
  | _ => Raise TypeError
  end.

(** [{"ok": True, **v}]: the entries of [v] come last and win. *)
Definition dict_ok_with (v : json) : result json :=
  match v with
  | JObj m => Return (JObj (m ∪ {["ok" := JBool true]}))
  | _ => Raise TypeError
  end.

(** [a or b] *)
Definition py_or (a b : json) : json := if truthy a then a else b.

(* ===================================================================== *)
(** ** app.py: the state store *)
(* ===================================================================== *)

Definition STATE_FILE : path := StateJson.

Definition now_iso : M string :=
  fun e w => (Return (clock e (ticks w)), World (files w) (S (ticks w))).

Definition atomic_write (p : path) (t : text) : M unit :=
  os_makedirs >>
  let* tmp := mkstemp in
  try_finally
    (write_file tmp t >> os_replace tmp p)
    (let* present := os_path_exists tmp in
     if present then try_except_OSError (os_remove tmp) (ret tt)
     else ret tt).

(** The record [default_state] builds when the clock reads [t]. *)
Definition default_record (t : string) : gmap string json :=
  {[ "color" := JStr "#ff0000"; "count" := JInt 0; "rev" := JInt 1;
     "updated_at" := JStr t ]}.

Definition default_state : M json :=
  let* t := now_iso in
  ret (JObj (default_record t)).

Definition load_state : M json :=
  os_makedirs >>
  let* present := os_path_exists STATE_FILE in
  if negb present then
    let* st := default_state in
    let* txt := lift (json_dumps st) in
    atomic_write STATE_FILE txt >>
    ret st
  else
    try_except
      (let* t := read_file STATE_FILE in
       let* st := lift (json_load t) in
       let* st := lift (dict_setdefault st "color" (JStr "#ff0000")) in
       let* st := lift (dict_setdefault st "count" (JInt 0)) in
       let* st := lift (dict_setdefault st "rev" (JInt 1)) in
       let* now := now_iso in
       let* st := lift (dict_setdefault st "updated_at" (JStr now)) in
       ret st)
      (let* st := default_state in
       let* txt := lift (json_dumps st) in
       atomic_write STATE_FILE txt >>
       ret st).

(* ===================================================================== *)
(** ** app.py: the endpoints *)
(* ===================================================================== *)

(** The part of a Flask request the handlers look at: whether the content
    type announces JSON, and the body. *)
Record request := Request { is_json : bool; data : text }.

(** [request.get_json(silent=True)]: [None] when the content type is not
    JSON or the body does not parse. *)
Definition get_json_silent (r : request) : json :=
  if is_json r then
    match data r with
    | JsonText v => v
    | NotJson _ => JNull
    end
  else JNull.

(** A response: status code and JSON body. *)
Record response := Response { status : Z; body : json }.

(** [jsonify(v)].  Its argument is a record that [json.dumps] has just
    written or that [json.load] has just read, so the serialisation inside
    [jsonify] meets no integer beyond the limit. *)
Definition jsonify (v : json) : response := Response 200 v.

Definition get_state : M response :=
  let* st := load_state in
  ret (jsonify st).

(** The [payload] of [set_state]:
    [request.get_json(silent=True) or {}] *)
Definition payload_of (r : request) : json :=
  py_or (get_json_silent r) (JObj ∅).

Definition set_state (r : request) : M response :=
  let payload := payload_of r in
  let* color := lift (dict_get payload "color" JNull) in
  let* count := lift (dict_get payload "count" JNull) in
  let '(ok, msg) := validate_state color count in
  if negb ok then
    ret (Response 400 (JObj {[ "ok" := JBool false; "error" := JStr msg ]}))
  else
    let* st := load_state in
    let* st := lift (dict_setitem st "color" color) in
    let* n := lift (py_int count) in
    let* st := lift (dict_setitem st "count" (JInt n)) in
    let* old := lift (dict_get st "rev" (JInt 1)) in
    let* rev := lift (py_int old) in
    let* st := lift (dict_setitem st "rev" (JInt (rev + 1))) in
    let* now := now_iso in
    let* st := lift (dict_setitem st "updated_at" (JStr now)) in
    let* txt := lift (json_dumps st) in
    atomic_write STATE_FILE txt >>
    let* out := lift (dict_ok_with st) in
    ret (jsonify out).

Definition health : M response :=
  let* now := now_iso in
  ret (jsonify (JObj {[ "status" := JStr "ok"; "time" := JStr now ]})).

(** *** The server: one request after the other *)

Inductive http_request :=
| GET_api_state
| POST_api_state (r : request)
| GET_api_health.

Definition handle (rq : http_request) : M response :=
  match rq with
  | GET_api_state => get_state
  | POST_api_state r => set_state r
  | GET_api_health => health
  end.

(** The world after serving the requests in order, each under the
    environment it meets.  A handler that raises leaves whatever it had
    written; Flask answers 500 and goes on. *)
Fixpoint serve (trace : list (env * http_request)) (w : world) : world :=
  match trace with
  | [] => w
  | (e, rq) :: rest => serve rest (snd (handle rq e w))
  end.

(* ===================================================================== *)
(** ** Vocabulary of the statements *)
(* ===================================================================== *)

(** An environment in which the calls [atomic_write] makes on its way to the
    target are not refused. *)
Definition writes_ok (e : env) : Prop :=
  fails e Makedirs = false /\ fails e Mkstemp = false /\
  fails e Write = false /\ fails e Replace = false.

(** The text is a JSON document whose top level is an object. *)
Definition parses_to_object (t : text) : bool :=
  match t with
  | JsonText (JObj _) => true
  | _ => false
  end.

(** A record with all four fields of the schema. *)
Definition complete (m : gmap string json) : Prop :=
  is_Some (m !! "color") /\ is_Some (m !! "count") /\
  is_Some (m !! "rev") /\ is_Some (m !! "updated_at").

(** The revision of the record in storage, when storage holds an object
    with an integer [rev]. *)
Definition stored_rev (w : world) : option Z :=
  match files w !! STATE_FILE with
  | Some (JsonText (JObj m)) =>
    match m !! "rev" with
    | Some (JInt r) => Some r
    | _ => None
    end
  | _ => None
  end.

(** Whatever [rev] the stored object carries, [int()] accepts it.  Records
    the program writes satisfy this; absent or unusable storage does too. *)
Definition stored_rev_usable (w : world) : Prop :=
  forall m v,
    files w !! STATE_FILE = Some (JsonText (JObj m)) ->
    m !! "rev" = Some v ->
    exists r, py_int v = Return r.

(** The document in storage is one [json.load] reads: its integers are
    within the limit.  Empty storage is such, and the program stores nothing
    else ([storage_parsable_invariant]). *)
Definition storage_parsable (w : world) : Prop :=
  forall v, files w !! STATE_FILE = Some (JsonText v) -> serialisable v = true.

(** Whatever [rev] the stored object carries, [int()] accepts it, and the
    next revision is still an integer [json] can write. *)
Definition stored_rev_has_room (w : world) : Prop :=
  forall m v,
    files w !! STATE_FILE = Some (JsonText (JObj m)) ->
    m !! "rev" = Some v ->
    exists r, py_int v = Return r /\ Z.abs (r + 1) < int_limit.


(** The character class of [HEX_COLOR_RE]. *)
Abbreviation hex_class := (Re.Class [("0", "9"); ("a", "f"); ("A", "F")]%char).

(** Between [w] and [w'] the target was left alone, or it now holds an
    object whose [rev] is an integer. *)
Definition target_kept_or_written (w w' : world) : Prop :=
  files w' !! STATE_FILE = files w !! STATE_FILE
  \/ exists st r, files w' !! STATE_FILE = Some (JsonText (JObj st))
                  /\ st !! "rev" = Some (JInt r).

(** The rules as the specification words them, to compare with what
    [validate_state] does. *)
Module Spec.

Definition is_hex_digit (c : ascii) : bool :=
  let n := N_of_ascii c in
  ((48 <=? n) && (n <=? 57) || (97 <=? n) && (n <=? 102)
   || (65 <=? n) && (n <=? 70))%N.

(** "#RRGGBB": a [#] followed by exactly six hex digits, nothing else. *)
Definition is_rrggbb (s : string) : bool :=
  match s with
  | String h r =>
    Ascii.eqb h "#" && (String.length r =? 6)%nat
    && forallb is_hex_digit (list_ascii_of_string r)
  | EmptyString => false
  end.

Definition is_ascii_digit (c : ascii) : bool :=
  ((48 <=? N_of_ascii c) && (N_of_ascii c <=? 57))%N.

(** "string of digits": one or more of [0] .. [9]. *)
Definition digit_string (s : string) : bool :=
  negb (String.eqb s "") && forallb is_ascii_digit (list_ascii_of_string s).

(** The number a string of digits denotes. *)
Definition decimal_value (s : string) : Z :=
  fold_left (fun a c => 10 * a + (Z.of_N (N_of_ascii c) - 48))
            (list_ascii_of_string s) 0.

(** "float with integral value -> integer" *)
Definition float_integral (f : spec_float) : option Z :=
  match f with
  | S754_zero _ => Some 0
  | S754_finite s m e =>
    if 0 <=? e then
      Some (if s then - (Z.pos m * 2 ^ e) else Z.pos m * 2 ^ e)
    else if Z.pos m mod 2 ^ (- e) =? 0 then
      Some (if s then - (Z.pos m / 2 ^ (- e)) else Z.pos m / 2 ^ (- e))
    else None
  | S754_nan | S754_infinity _ => None
  end.

(** "string of digits -> integer; float with integral value -> integer;
    anything else -> validation failure" (an integer is itself). *)
Definition coerce_count (v : json) : option Z :=
  match v with
  | JInt n => Some n
  | JStr s => if digit_string s then Some (decimal_value s) else None
  | JFloat f => float_integral f
  | JNull | JBool _ | JArr _ | JObj _ => None
  end.

(** "count must be coercible to an integer and fall within [0, 8]" *)
Definition count_ok (v : json) : bool :=
  match coerce_count v with
  | Some n => (0 <=? n) && (n <=? 8)
  | None => false
  end.

End Spec.

(** The magnitude [m * 2^e] of a finite float is below the integer [k]. *)
Definition magnitude_lt (m : positive) (e : Z) (k : Z) : Prop :=
  Z.pos m * 2 ^ Z.max e 0 < k * 2 ^ Z.max (- e) 0.

(** [validate_state] passes. *)
Definition accepted (color count : json) : Prop :=
  validate_state color count = (true, "").

(** *** Sample inputs *)

(** A well-behaved environment: nothing is refused; the clock reads the
    same instant throughout. *)
Definition calm : env :=
  Env (fun _ => "2024-05-01T12:00:00+00:00") (fun _ => false).

(** An environment that refuses the rename onto the target. *)
Definition rename_refused : env :=
  Env (fun _ => "2024-05-01T12:00:00+00:00")
      (fun c => match c with Replace => true | _ => false end).

(** Nothing on disk yet. *)
Definition blank : world := World ∅ 0.

(** A record as the program writes it. *)
Definition green3 : gmap string json :=
  {[ "color" := JStr "#00ff00"; "count" := JInt 3; "rev" := JInt 2;
     "updated_at" := JStr "2024-04-30T08:00:00+00:00" ]}.

(** Storage holding [green3]. *)
Definition with_green3 : world :=
  World {[ STATE_FILE := JsonText (JObj green3) ]} 0.

(** Storage holding an object with a single field. *)
Definition rev_only : world :=
  World {[ STATE_FILE := JsonText (JObj {[ "rev" := JInt 7 ]}) ]} 0.

(** Storage holding a file cut short: not JSON. *)
Definition truncated : world :=
  World {[ STATE_FILE := NotJson "{" ]} 0.

(** A request with a JSON body. *)
Definition post_json (v : json) : request := Request true (JsonText v).

(** The float 3.5 as a binary64: mantissa [7 * 2^50], exponent [-51]. *)
Definition three_and_a_half : spec_float :=
  S754_finite false 7881299347898368 (-51).

(* ===================================================================== *)
(** ** app.py: start-up *)
(* ===================================================================== *)

(** The settings the [__main__] block reads from [os.environ] before it
    starts the server:
    [port = int(os.environ.get("PORT", 5000))] and
    [debug = os.environ.get("FLASK_ENV") != "production"].
    The port is computed first; when [int()] raises, nothing else runs. *)
Definition main_config (environ : gmap string string) : result (Z * bool) :=
  match py_int (match environ !! "PORT" with
                | Some s => JStr s
                | None => JInt 5000
                end) with
  | Return port =>
    Return (port,
            negb (bool_decide (environ !! "FLASK_ENV" = Some "production")))
  | Raise x => Raise x
  end.

(* ===================================================================== *)
(** ** Vocabulary of the further properties *)
(* ===================================================================== *)

(** What the first branch of [load_state] and its [except] branch do: read
    the clock, persist the default record, return it. *)
Definition regenerate (e : env) (w : world) : result json * world :=
  (let* st := default_state in
   let* txt := lift (json_dumps st) in
   atomic_write STATE_FILE txt >> ret st) e w.

(** Storage [load_state] cannot use: absent, unreadable, not JSON, or JSON
    that is not an object. *)
Definition unusable (e : env) (w : world) : Prop :=
  files w !! STATE_FILE = None
  \/ exists t, files w !! STATE_FILE = Some t
               /\ (fails e Open = true \/ parses_to_object t = false).

(** The four fields [set_state] assigns. *)
Definition schema_key (k : string) : bool :=
  String.eqb k "color" || String.eqb k "count" || String.eqb k "rev"
  || String.eqb k "updated_at".

(** A record as the program writes it: a colour the pattern matches, an
    integer count within the bounds, an integer revision of at least 1, a
    time stamp that is a string. *)
Definition valid_record (m : gmap string json) : Prop :=
  (exists s, m !! "color" = Some (JStr s) /\ Re.matches HEX_COLOR_RE s = true)
  /\ (exists n, m !! "count" = Some (JInt n) /\ LED_MIN <= n <= LED_MAX)
  /\ (exists r, m !! "rev" = Some (JInt r) /\ 1 <= r)
  /\ (exists t, m !! "updated_at" = Some (JStr t)).

(** Storage is absent or holds a record as the program writes it. *)
Definition store_valid (w : world) : Prop :=
  files w !! STATE_FILE = None
  \/ exists m, files w !! STATE_FILE = Some (JsonText (JObj m))
               /\ valid_record m.

(** No temporary file is lying around. *)
Definition no_temp_files (w : world) : Prop :=
  forall k, files w !! Tmp k = None.

(** The number of [POST /api/state] requests of the trace answered 200. *)
Fixpoint writes_applied (trace : list (env * http_request)) (w : world) : Z :=
  match trace with
  | [] => 0
  | (e, rq) :: rest =>
    (match rq, fst (handle rq e w) with
     | POST_api_state _, Return rsp => if status rsp =? 200 then 1 else 0
     | _, _ => 0
     end)
    + writes_applied rest (snd (handle rq e w))
  end.

(** An environment that refuses to create the temporary file. *)
Definition mkstemp_refused : env :=
  Env (fun _ => "2024-05-01T12:00:00+00:00")
      (fun c => match c with Mkstemp => true | _ => false end).

(** Storage holding an object with a field the program does not know and a
    [rev] that [int()] rejects. *)
Definition rev_null : world :=
  World {[ STATE_FILE :=
             JsonText (JObj {[ "rev" := JNull; "label" := JStr "desk" ]}) ]} 0.

(** Storage holding [green3] and one more field. *)
Definition green3_labelled : world :=
  World {[ STATE_FILE :=
             JsonText (JObj (<["label" := JStr "desk"]> green3)) ]} 0.

(** A valid write request. *)
Definition post_blue8 : request :=
  post_json (JObj {[ "color" := JStr "#0000ff"; "count" := JInt 8 ]}).

(* ===================================================================== *)
(** * Verification *)
(* ===================================================================== *)

(** ** The file system *)

Lemma world_eta w : World (files w) (ticks w) = w.
Proof. now destruct w. Qed.

(** The name [mkstemp] picks is not in use. *)
Lemma fresh_tmp_unused (fs : gmap path text) :
  fs !! Tmp (fresh (tmp_indices fs)) = None.
Proof.
  destruct (fs !! Tmp (fresh (tmp_indices fs))) as [t|] eqn:Hl; [|reflexivity].
  exfalso. apply (is_fresh (tmp_indices fs)).
  unfold tmp_indices. apply elem_of_set_omap.
  exists (Tmp (fresh (tmp_indices fs))). split; [|reflexivity].
  apply elem_of_dom. rewrite Hl. eauto.
Qed.

(** Creating a temporary file and removing it again restores the files. *)
Lemma delete_fresh_tmp (fs : gmap path text) (t u : text) :
  let tmp := Tmp (fresh (tmp_indices fs)) in
  delete tmp (<[tmp := t]> (<[tmp := u]> fs)) = fs.
Proof.
  intros tmp. rewrite !delete_insert_eq.
  apply delete_id, fresh_tmp_unused.
Qed.

(** When nothing is refused, [atomic_write] puts the text at the target and
    leaves no temporary file behind. *)
Lemma atomic_write_ok e w t :
  writes_ok e ->
  atomic_write STATE_FILE t e w
  = (Return tt, World (<[STATE_FILE := t]> (files w)) (ticks w)).
Proof.
  intros (Hd & Hm & Hw & Hr).
  unfold atomic_write, bind, os_makedirs, mkstemp, try_finally, write_file,
    os_replace, os_path_exists. rewrite Hd, Hm. cbn. rewrite Hw. cbn.
  rewrite Hr. cbn. rewrite lookup_insert_eq. cbn.
  rewrite lookup_insert_ne by discriminate. rewrite lookup_delete_eq. cbn.
  unfold ret. now rewrite delete_fresh_tmp.
Qed.

(** C6.  If the write to the temporary file or the rename onto the target is
    refused (and the removal of the temporary file is not), [atomic_write]
    raises the error to its caller and leaves the world exactly as it found
    it: the temporary file is gone and the target still holds what it held. *)
Theorem atomic_write_failure_restores e w p t :
  fails e Remove = false ->
  fails e Write = true \/ fails e Replace = true ->
  atomic_write p t e w = (Raise OSError, w).
Proof.
  intros Hrm Hfail.
  unfold atomic_write, bind, os_makedirs, mkstemp.
  destruct (fails e Makedirs) eqn:Hd; [reflexivity|].
  destruct (fails e Mkstemp) eqn:Hm; [reflexivity|].
  unfold try_finally, write_file, os_replace, os_path_exists,
    try_except_OSError, os_remove.
  destruct (fails e Write) eqn:Hw; cbn.
  - rewrite lookup_insert_eq. cbn. rewrite Hrm, lookup_insert_eq. cbn.
    rewrite delete_insert_eq, delete_id by apply fresh_tmp_unused.
    now rewrite world_eta.
  - destruct Hfail as [Hfail|Hfail]; [discriminate|]. rewrite Hfail. cbn.
    rewrite lookup_insert_eq. cbn. rewrite Hrm, lookup_insert_eq. cbn.
    rewrite delete_fresh_tmp. now rewrite world_eta.
Qed.

Lemma atomic_write_failure_restores_witness :
  atomic_write STATE_FILE (JsonText (JObj (default_record "now")))
    rename_refused with_green3
  = (Raise OSError, with_green3).
Proof.
  apply (atomic_write_failure_restores rename_refused with_green3);
    [reflexivity|right; reflexivity].
Defined.

(** The cleanup is best effort: when the removal is refused as well, the
    error [os.remove] raises is swallowed and the temporary file stays; the
    target and every file that was there are still untouched. *)
Lemma atomic_write_failure_keeps_target e w t :
  fails e Write = true \/ fails e Replace = true ->
  exists w', atomic_write STATE_FILE t e w = (Raise OSError, w')
             /\ (forall q, q = STATE_FILE \/ is_Some (files w !! q) ->
                           files w' !! q = files w !! q)
             /\ ticks w' = ticks w.
Proof.
  intros Hfail.
  assert (Hq : forall (q : path) u,
            q = STATE_FILE \/ is_Some (files w !! q) ->
            <[Tmp (fresh (tmp_indices (files w))) := u]> (files w) !! q
            = files w !! q).
  { intros q u Hcase. apply lookup_insert_ne. intros <-.
    destruct Hcase as [Heq|[x Hx]]; [discriminate|].
    rewrite fresh_tmp_unused in Hx. discriminate. }
  unfold atomic_write, bind, os_makedirs, mkstemp.
  destruct (fails e Makedirs) eqn:Hd; [now exists w|].
  destruct (fails e Mkstemp) eqn:Hm; [now exists w|].
  unfold try_finally, write_file, os_replace, os_path_exists,
    try_except_OSError, os_remove.
  destruct (fails e Write) eqn:Hw; cbn.
  - rewrite lookup_insert_eq. cbn.
    destruct (fails e Remove) eqn:Hrm; cbn.
    + eexists. split; [reflexivity|]. cbn. split; [|reflexivity].
      intros q Hs. now apply Hq.
    + rewrite lookup_insert_eq. cbn.
      rewrite delete_insert_eq, delete_id by apply fresh_tmp_unused.
      eexists. split; [reflexivity|]. now cbn.
  - destruct Hfail as [Hfail|Hfail]; [discriminate|]. rewrite Hfail. cbn.
    rewrite lookup_insert_eq. cbn.
    destruct (fails e Remove) eqn:Hrm; cbn.
    + eexists. split; [reflexivity|]. cbn. split; [|reflexivity].
      intros q Hs. rewrite insert_insert_eq. now apply Hq.
    + rewrite lookup_insert_eq. cbn. rewrite delete_fresh_tmp.
      eexists. split; [reflexivity|]. now cbn.
Qed.

(** Whatever the operating system refuses, [atomic_write] either installs
    the whole text at the target or raises and leaves the target alone. *)
Lemma atomic_write_cases e w t :
  atomic_write STATE_FILE t e w
  = (Return tt, World (<[STATE_FILE := t]> (files w)) (ticks w))
  \/ exists w', atomic_write STATE_FILE t e w = (Raise OSError, w')
                /\ files w' !! STATE_FILE = files w !! STATE_FILE
                /\ ticks w' = ticks w.
Proof.
  destruct (fails e Makedirs) eqn:Hd.
  { right. exists w. unfold atomic_write, bind, os_makedirs. now rewrite Hd. }
  destruct (fails e Mkstemp) eqn:Hm.
  { right. exists w. unfold atomic_write, bind, os_makedirs, mkstemp.
    now rewrite Hd, Hm. }
  destruct (fails e Write) eqn:Hw.
  { right. destruct (atomic_write_failure_keeps_target e w t) as (w' & H1 & H2 & H3);
      [now left|]. exists w'. auto. }
  destruct (fails e Replace) eqn:Hr.
  { right. destruct (atomic_write_failure_keeps_target e w t) as (w' & H1 & H2 & H3);
      [now right|]. exists w'. auto. }
  left. now apply atomic_write_ok.
Qed.

(** ** [json.dumps] *)

(** An object is accepted exactly when each of its values is. *)
Lemma serialisable_obj (m : gmap string json) :
  serialisable (JObj m) = true
  <-> map_Forall (fun _ v => serialisable v = true) m.
Proof.
  change (serialisable (JObj m))
    with (map_fold (fun (_ : string) x acc => serialisable x && acc) true m).
  induction m as [|k v m Hk IH] using map_ind.
  - rewrite map_fold_empty. split; [intros _; apply map_Forall_empty|reflexivity].
  - rewrite map_fold_insert_L; [|intros; now rewrite !andb_assoc,
                                   (andb_comm (serialisable z1))|assumption].
    rewrite map_Forall_insert by assumption.
    now rewrite andb_true_iff, IH.
Qed.

Lemma serialisable_lookup (m : gmap string json) k v :
  serialisable (JObj m) = true -> m !! k = Some v -> serialisable v = true.
Proof.
  rewrite serialisable_obj. intros Hm Hk. exact (map_Forall_lookup_1 _ _ _ _ Hm Hk).
Qed.

Lemma serialisable_insert (m : gmap string json) k v :
  serialisable v = true ->
  serialisable (JObj m) = true ->
  serialisable (JObj (<[k := v]> m)) = true.
Proof.
  rewrite !serialisable_obj. intros Hv Hm. now apply map_Forall_insert_2.
Qed.

Lemma serialisable_union (m1 m2 : gmap string json) :
  serialisable (JObj m1) = true ->
  serialisable (JObj m2) = true ->
  serialisable (JObj (m1 ∪ m2)) = true.
Proof. rewrite !serialisable_obj. apply map_Forall_union_2. Qed.

Lemma int_limit_above_8 : 8 < int_limit.
Proof.
  unfold int_limit.
  apply Z.lt_le_trans with (10 ^ 1); [reflexivity|].
  apply Z.pow_le_mono_r; [lia|]. unfold PyLong.max_str_digits. lia.
Qed.

Lemma serialisable_int n :
  serialisable (JInt n) = true <-> Z.abs n < int_limit.
Proof. cbn [serialisable]. apply Z.ltb_lt. Qed.

Lemma default_record_serialisable t :
  serialisable (JObj (default_record t)) = true.
Proof.
  pose proof int_limit_above_8 as Hlim. unfold default_record.
  repeat apply serialisable_insert; try reflexivity;
    try (apply serialisable_int; lia).
  all: apply serialisable_obj, map_Forall_singleton; reflexivity.
Qed.

(** The record [set_state] builds is accepted when the loaded record is
    and the new revision is within the limit. *)
Lemma written_record_serialisable (st : gmap string json) s n r u :
  serialisable (JObj st) = true ->
  0 <= n <= 8 ->
  Z.abs r < int_limit ->
  serialisable (JObj (<["updated_at" := JStr u]>
                        (<["rev" := JInt r]>
                           (<["count" := JInt n]>
                              (<["color" := JStr s]> st))))) = true.
Proof.
  intros Hst Hn Hr. pose proof int_limit_above_8 as Hlim.
  repeat apply serialisable_insert; try reflexivity; try assumption;
    apply serialisable_int; [assumption|lia].
Qed.

Lemma json_dumps_ok v :
  serialisable v = true -> json_dumps v = Return (JsonText v).
Proof. unfold json_dumps. now intros ->. Qed.


(** Building and persisting the default record, in terms of the write. *)
Lemma regenerate_unfold e w :
  regenerate e w
  = match atomic_write STATE_FILE
            (JsonText (JObj (default_record (clock e (ticks w))))) e
            (World (files w) (S (ticks w))) with
    | (Return _, w2) => (Return (JObj (default_record (clock e (ticks w)))), w2)
    | (Raise x, w2) => (Raise x, w2)
    end.
Proof.
  unfold regenerate, bind, default_state, bind, now_iso, ret, lift.
  rewrite json_dumps_ok by apply default_record_serialisable.
  now destruct (atomic_write _ _ _ _) as [[[]|x] w2].
Qed.

Lemma regenerate_ok e w :
  writes_ok e ->
  regenerate e w
  = (Return (JObj (default_record (clock e (ticks w)))),
     World (<[STATE_FILE := JsonText (JObj (default_record (clock e (ticks w))))]>
              (files w))
           (S (ticks w))).
Proof.
  intros Hok. rewrite regenerate_unfold. now rewrite atomic_write_ok.
Qed.

(** ** [load_state] *)

(** [setdefault] on a dict is a union with a singleton, the dict winning. *)
Lemma dict_setdefault_union (m : gmap string json) k d :
  dict_setdefault (JObj m) k d = Return (JObj (m ∪ {[k := d]})).
Proof.
  cbn. do 2 f_equal. apply map_eq. intros i.
  rewrite lookup_union.
  destruct (m !! k) as [x|] eqn:Hk.
  - destruct (decide (k = i)) as [<-|Hne].
    + rewrite Hk, lookup_singleton_eq. reflexivity.
    + rewrite lookup_singleton_ne by assumption. now destruct (m !! i).
  - destruct (decide (k = i)) as [<-|Hne].
    + rewrite lookup_insert_eq, Hk, lookup_singleton_eq. reflexivity.
    + rewrite lookup_insert_ne, lookup_singleton_ne by assumption.
      now destruct (m !! i).
Qed.

(** The four [setdefault] calls of [load_state] amount to a union with the
    default record. *)
Lemma backfill_union (m : gmap string json) (t : string) :
  m ∪ {["color" := JStr "#ff0000"]} ∪ {["count" := JInt 0]}
    ∪ {["rev" := JInt 1]} ∪ {["updated_at" := JStr t]}
  = m ∪ default_record t.
Proof.
  unfold default_record. rewrite <- !(assoc_L (∪)).
  now rewrite <- !insert_union_singleton_l.
Qed.

(** Storage absent: the default record is built, persisted and returned. *)
Lemma load_state_missing e w :
  writes_ok e ->
  files w !! STATE_FILE = None ->
  load_state e w
  = (Return (JObj (default_record (clock e (ticks w)))),
     World (<[STATE_FILE := JsonText (JObj (default_record (clock e (ticks w))))]>
              (files w))
           (S (ticks w))).
Proof.
  intros Hok Hnone. pose proof Hok as (Hd & _).
  unfold load_state. unfold bind at 1. unfold os_makedirs. rewrite Hd.
  unfold bind at 1. unfold os_path_exists. rewrite Hnone.
  replace (bool_decide (is_Some (@None text))) with false by reflexivity.
  cbn [negb]. fold (regenerate e w). now apply regenerate_ok.
Qed.

(** Storage present but unreadable, not JSON, or not an object: the
    exception is caught, and the default record is built, persisted and
    returned. *)
Lemma load_state_unusable e w t :
  writes_ok e ->
  files w !! STATE_FILE = Some t ->
  fails e Open = true \/ parses_to_object t = false ->
  load_state e w
  = (Return (JObj (default_record (clock e (ticks w)))),
     World (<[STATE_FILE := JsonText (JObj (default_record (clock e (ticks w))))]>
              (files w))
           (S (ticks w))).
Proof.
  intros Hok Hsome Hbad. pose proof Hok as (Hd & _).
  unfold load_state. unfold bind at 1. unfold os_makedirs. rewrite Hd.
  unfold bind at 1. unfold os_path_exists. rewrite Hsome.
  replace (bool_decide (is_Some (Some t))) with true by reflexivity.
  cbn [negb]. unfold try_except.
  unfold bind at 1. unfold read_file.
  destruct (fails e Open) eqn:Ho.
  { fold (regenerate e w). now apply regenerate_ok. }
  destruct Hbad as [Hbad|Hbad]; [discriminate|].
  rewrite Hsome. unfold bind at 1. unfold lift at 1.
  destruct t as [v|raw]; cbn [json_load];
    [|fold (regenerate e w); now apply regenerate_ok].
  destruct v; try discriminate;
    (unfold bind at 1; unfold lift at 1; cbn [dict_setdefault];
     fold (regenerate e w); now apply regenerate_ok).
Qed.

(** Storage holds an object: the missing fields are filled in and nothing
    is written. *)
Lemma load_state_object e w m :
  fails e Makedirs = false ->
  fails e Open = false ->
  files w !! STATE_FILE = Some (JsonText (JObj m)) ->
  load_state e w
  = (Return (JObj (m ∪ default_record (clock e (ticks w)))),
     World (files w) (S (ticks w))).
Proof.
  intros Hd Ho Hsome.
  unfold load_state, bind, os_makedirs, os_path_exists. rewrite Hd, Hsome. cbn.
  unfold try_except, read_file. rewrite Ho, Hsome. unfold lift, json_load.
  rewrite !dict_setdefault_union. unfold now_iso, ret. cbn beta iota.
  now rewrite backfill_union.
Qed.

Lemma default_record_lookup t :
  default_record t !! "color" = Some (JStr "#ff0000")
  /\ default_record t !! "count" = Some (JInt 0)
  /\ default_record t !! "rev" = Some (JInt 1)
  /\ default_record t !! "updated_at" = Some (JStr t).
Proof. repeat split; reflexivity. Qed.

(** The default record has no field besides the four of the schema. *)
Lemma default_record_other t k :
  k <> "color" -> k <> "count" -> k <> "rev" -> k <> "updated_at" ->
  default_record t !! k = None.
Proof.
  intros H1 H2 H3 H4. unfold default_record.
  rewrite !lookup_insert_ne by congruence.
  now rewrite lookup_singleton_ne by congruence.
Qed.

Lemma default_record_complete t : complete (default_record t).
Proof. repeat split; eexists; apply default_record_lookup. Qed.

Lemma backfill_complete (m : gmap string json) t :
  complete (m ∪ default_record t).
Proof.
  destruct (default_record_lookup t) as (H1 & H2 & H3 & H4).
  repeat split; rewrite lookup_union;
    [rewrite H1|rewrite H2|rewrite H3|rewrite H4];
    match goal with |- context [m !! ?k] => destruct (m !! k) end;
    cbn; eauto.
Qed.

(** Filling in defaults does nothing to a complete record. *)
Lemma backfill_noop (m : gmap string json) t :
  complete m -> m ∪ default_record t = m.
Proof.
  intros ([c Hc] & [n Hn] & [r Hr] & [u Hu]).
  apply map_eq. intros k. rewrite lookup_union.
  destruct (m !! k) as [x|] eqn:Hk.
  - now destruct (default_record t !! k).
  - rewrite default_record_other by congruence. reflexivity.
Qed.

(** The storage [load_state] cannot use: absent, unreadable, not JSON, or
    JSON that is not an object. *)
Lemma load_state_regenerates e w :
  writes_ok e ->
  files w !! STATE_FILE = None
  \/ (exists t, files w !! STATE_FILE = Some t
                /\ (fails e Open = true \/ parses_to_object t = false)) ->
  load_state e w
  = (Return (JObj (default_record (clock e (ticks w)))),
     World (<[STATE_FILE := JsonText (JObj (default_record (clock e (ticks w))))]>
              (files w))
           (S (ticks w))).
Proof.
  intros Hok [Hnone|(t & Hsome & Hbad)].
  - now apply load_state_missing.
  - now apply (load_state_unusable e w t).
Qed.

(** Every storage is of one kind or the other. *)
Lemma storage_cases e w :
  (files w !! STATE_FILE = None
   \/ (exists t, files w !! STATE_FILE = Some t
                 /\ (fails e Open = true \/ parses_to_object t = false)))
  \/ (fails e Open = false
      /\ exists m, files w !! STATE_FILE = Some (JsonText (JObj m))).
Proof.
  destruct (files w !! STATE_FILE) as [t|]; [|now left; left].
  destruct (fails e Open); [left; right; eauto|].
  destruct t as [[]|]; try (left; right; eexists; split; [reflexivity|now right]).
  right. eauto.
Qed.

(** C4.  While the file system honours writes, [load_state] never raises:
    it always returns a record with all four fields.  When storage is
    missing, cannot be read, is not JSON, or is JSON but not an object, the
    record returned is the default one (colour [#ff0000], count 0, rev 1, the
    time stamp read from the clock during this very call), and that record
    is what storage holds afterwards. *)
Theorem load_state_self_heals e w :
  writes_ok e ->
  (exists m w', load_state e w = (Return (JObj m), w') /\ complete m)
  /\
  (files w !! STATE_FILE = None
   \/ (exists t, files w !! STATE_FILE = Some t
                 /\ (fails e Open = true \/ parses_to_object t = false)) ->
   let fresh_default : gmap string json :=
     {[ "color" := JStr "#ff0000"; "count" := JInt 0; "rev" := JInt 1;
        "updated_at" := JStr (clock e (ticks w)) ]} in
   load_state e w
   = (Return (JObj fresh_default),
      World (<[STATE_FILE := JsonText (JObj fresh_default)]> (files w))
            (S (ticks w)))).
Proof.
  intros Hok. split.
  - destruct (storage_cases e w) as [Hbad|(Ho & m & Hf)].
    + rewrite load_state_regenerates by assumption.
      do 2 eexists. split; [reflexivity|apply default_record_complete].
    + rewrite (load_state_object e w m); try assumption; [|apply Hok].
      do 2 eexists. split; [reflexivity|apply backfill_complete].
  - intros Hbad fresh_default. now apply load_state_regenerates.
Qed.

Lemma load_state_self_heals_witness :
  let fresh_default : gmap string json :=
    {[ "color" := JStr "#ff0000"; "count" := JInt 0; "rev" := JInt 1;
       "updated_at" := JStr "2024-05-01T12:00:00+00:00" ]} in
  load_state calm truncated
  = (Return (JObj fresh_default),
     World {[ STATE_FILE := JsonText (JObj fresh_default) ]} 1).
Proof.
  assert (Hok : writes_ok calm) by (repeat split; reflexivity).
  apply (proj2 (load_state_self_heals calm truncated Hok)).
  right. exists (NotJson "{"). split; [reflexivity|right; reflexivity].
Defined.




(** C9.  When storage holds a JSON object, [load_state] returns it with the
    absent fields filled in from the defaults (fields present are kept as
    they are: [rev] is not bumped, [updated_at] is the clock reading only if
    absent), and writes nothing: the files are the same afterwards. *)
Theorem load_state_backfills_without_writing e w m :
  fails e Makedirs = false ->
  fails e Open = false ->
  files w !! STATE_FILE = Some (JsonText (JObj m)) ->
  exists st w',
    load_state e w = (Return (JObj st), w')
    /\ files w' = files w
    /\ (forall k v, m !! k = Some v -> st !! k = Some v)
    /\ st !! "color" = Some (default (JStr "#ff0000") (m !! "color"))
    /\ st !! "count" = Some (default (JInt 0) (m !! "count"))
    /\ st !! "rev" = Some (default (JInt 1) (m !! "rev"))
    /\ st !! "updated_at"
       = Some (default (JStr (clock e (ticks w))) (m !! "updated_at"))
    /\ (forall k, k <> "color" -> k <> "count" -> k <> "rev" ->
                  k <> "updated_at" -> st !! k = m !! k).
Proof.
  intros Hd Ho Hsome.
  rewrite (load_state_object e w m) by assumption.
  destruct (default_record_lookup (clock e (ticks w))) as (H1 & H2 & H3 & H4).
  do 2 eexists. split; [reflexivity|]. split; [reflexivity|].
  split; [|repeat split].
  - intros k v Hk. rewrite lookup_union, Hk.
    now destruct (default_record _ !! k).
  - rewrite lookup_union, H1. now destruct (m !! "color").
  - rewrite lookup_union, H2. now destruct (m !! "count").
  - rewrite lookup_union, H3. now destruct (m !! "rev").
  - rewrite lookup_union, H4. now destruct (m !! "updated_at").
  - intros k K1 K2 K3 K4. rewrite lookup_union, default_record_other by assumption.
    now destruct (m !! k).
Qed.

Lemma load_state_backfills_without_writing_witness :
  exists st w',
    load_state calm rev_only = (Return (JObj st), w')
    /\ files w' = files rev_only
    /\ st !! "rev" = Some (JInt 7)
    /\ st !! "color" = Some (JStr "#ff0000")
    /\ st !! "updated_at" = Some (JStr "2024-05-01T12:00:00+00:00").
Proof.
  destruct (load_state_backfills_without_writing calm rev_only
              {[ "rev" := JInt 7 ]} eq_refl eq_refl eq_refl)
    as (st & w' & Hl & Hf & _ & Hc & _ & Hr & Hu & _).
  exists st, w'. repeat split; assumption.
Defined.

(** ** [validate_state] *)

Lemma class_hex_digit c :
  existsb (Re.in_range c) [("0", "9"); ("a", "f"); ("A", "F")]%char
  = Spec.is_hex_digit c.
Proof.
  unfold Spec.is_hex_digit, Re.in_range. cbn.
  now rewrite orb_false_r, orb_assoc.
Qed.

(** What six repetitions of the class consume. *)
Lemma match_repeat_class n s :
  Re.match_repeat (Re.Class [("0", "9"); ("a", "f"); ("A", "F")]%char) (S n) false s
  = match s with
    | String c r =>
      if Spec.is_hex_digit c
      then Re.match_repeat (Re.Class [("0", "9"); ("a", "f"); ("A", "F")]%char) n false r
      else None
    | EmptyString => None
    end.
Proof.
  destruct s as [|c r]; [reflexivity|].
  cbn [Re.match_repeat Re.match_atom]. rewrite class_hex_digit.
  now destruct (Spec.is_hex_digit c).
Qed.

Lemma match_repeat_class_Some n : forall s st r,
  Re.match_repeat hex_class n false s = Some (st, r)
  <-> st = false
      /\ exists p, s = p +:+ r /\ String.length p = n
                   /\ forallb Spec.is_hex_digit (list_ascii_of_string p) = true.
Proof.
  induction n as [|n IH]; intros s st r.
  - cbn. split.
    + intros [= <- <-]. split; [reflexivity|]. now exists "".
    + intros (-> & p & -> & Hlen & _). destruct p; [reflexivity|discriminate].
  - rewrite match_repeat_class. destruct s as [|c s'].
    + split; [discriminate|].
      intros (_ & p & Hp & Hlen & _). destruct p; discriminate.
    + destruct (Spec.is_hex_digit c) eqn:Hc.
      * rewrite IH. split.
        -- intros (-> & p & -> & Hlen & Hall). split; [reflexivity|].
           exists (String c p). cbn. rewrite Hc, Hall, Hlen. auto.
        -- intros (-> & p & Hp & Hlen & Hall). split; [reflexivity|].
           destruct p as [|c' p']; [discriminate|].
           cbn in Hp, Hlen, Hall. injection Hp as <- ->.
           apply andb_true_iff in Hall as [_ Hall].
           exists p'. repeat split; [congruence|assumption].
      * split; [discriminate|].
        intros (_ & p & Hp & Hlen & Hall).
        destruct p as [|c' p']; [discriminate|].
        cbn in Hp, Hall. injection Hp as <- _.
        rewrite Hc in Hall. discriminate.
Qed.

Lemma append_empty_r (s : string) : s +:+ "" = s.
Proof.
  induction s as [|c s IH]; [reflexivity|].
  change (String c s +:+ "") with (String c (s +:+ "")). now rewrite IH.
Qed.

(** [HEX_COLOR_RE.match], element by element. *)
Lemma matches_unfold s :
  Re.matches HEX_COLOR_RE s
  = match s with
    | String h r =>
      if Ascii.eqb "#" h then
        match Re.match_repeat hex_class 6 false r with
        | Some (_, r') => String.eqb r' "" || String.eqb r' LF
        | None => false
        end
      else false
    | EmptyString => false
    end.
Proof.
  unfold Re.matches, HEX_COLOR_RE. cbn [Re.match_from].
  change (Re.match_repeat Re.Bol 1 true s) with (Some (true, s)).
  cbv beta iota.
  destruct s as [|h r]; [reflexivity|].
  replace (Re.match_repeat (Re.Lit "#") 1 true (String h r))
    with (if Ascii.eqb "#" h then Some (false, r) else @None (bool * string))
    by (cbn [Re.match_repeat Re.match_atom]; now destruct (Ascii.eqb "#" h)).
  destruct (Ascii.eqb "#" h); [|reflexivity]. cbv beta iota.
  destruct (Re.match_repeat hex_class 6 false r) as [[st r']|]; [|reflexivity].
  replace (Re.match_repeat Re.Eol 1 st r')
    with (if String.eqb r' "" || String.eqb r' LF
          then Some (st, r') else @None (bool * string))
    by (cbn [Re.match_repeat Re.match_atom]; unfold LF;
        now destruct (String.eqb r' "" || String.eqb r' _)).
  now destruct (String.eqb r' "" || String.eqb r' LF).
Qed.

(** The strings [HEX_COLOR_RE.match] accepts: [#] and six hex digits, then
    the end of the string or one final line feed. *)
Lemma HEX_COLOR_RE_matches s :
  Re.matches HEX_COLOR_RE s = true
  <-> Spec.is_rrggbb s = true
      \/ exists s0, Spec.is_rrggbb s0 = true /\ s = s0 +:+ LF.
Proof.
  rewrite matches_unfold.
  destruct s as [|h r].
  { split; [discriminate|].
    intros [H|(s0 & H & Hs)]; [discriminate|]. destruct s0; discriminate. }
  destruct (Ascii.eqb "#" h) eqn:Hh.
  2:{ split; [discriminate|]. rewrite Ascii.eqb_sym in Hh.
      intros [H|(s0 & H & Hs)].
      - cbn in H. rewrite Hh in H. discriminate.
      - destruct s0 as [|h0 r0]; [discriminate|]. cbn in H, Hs.
        injection Hs as <- _. rewrite Hh in H. discriminate. }
  apply Ascii.eqb_eq in Hh as <-.
  destruct (Re.match_repeat hex_class 6 false r) as [[st r']|] eqn:Hrep.
  - apply match_repeat_class_Some in Hrep as (-> & p & -> & Hlen & Hall).
    destruct (String.eqb r' "" || String.eqb r' LF) eqn:Hend.
    + split; [intros _|reflexivity].
      apply orb_true_iff in Hend as [He|He]; apply String.eqb_eq in He; subst r'.
      * left. rewrite append_empty_r. cbn. now rewrite Hlen, Hall.
      * right. exists (String "#" p). cbn. now rewrite Hlen, Hall.
    + split; [discriminate|]. apply orb_false_iff in Hend as [He1 He2].
      apply String.eqb_neq in He1, He2.
      assert (Hcancel : forall a b c : string,
                String.length a = String.length b -> a +:+ c = b -> c = "").
      { induction a as [|x a IHa]; intros [|y b] c Hl Hab; try discriminate.
        - assumption.
        - injection Hl as Hl. injection Hab as _ Hab. now apply (IHa b). }
      assert (Hcancel2 : forall a b c d : string,
                String.length a = String.length b -> a +:+ c = b +:+ d -> c = d).
      { induction a as [|x a IHa]; intros [|y b] c d Hl Hab; try discriminate.
        - assumption.
        - injection Hl as Hl. injection Hab as _ Hab. now apply (IHa b). }
      intros [H|(s0 & H & Hs)].
      * cbn in H. apply andb_true_iff in H as [H _].
        apply Nat.eqb_eq in H. exfalso. apply He1.
        apply (Hcancel p (p +:+ r') r'); [|reflexivity].
        rewrite <- Hlen in H. clear -H.
        revert H. generalize (p +:+ r') as q. intros q H. congruence.
      * destruct s0 as [|h0 r0]; [discriminate|]. cbn in H, Hs.
        injection Hs as _ Hs.
        apply andb_true_iff in H as [H _]. apply andb_true_iff in H as [_ H].
        apply Nat.eqb_eq in H. exfalso. apply He2.
        apply (Hcancel2 p r0 r' LF); congruence.
  - split; [discriminate|].
    assert (Hnone : forall p r', r = p +:+ r' -> String.length p = 6%nat ->
              forallb Spec.is_hex_digit (list_ascii_of_string p) = true -> False).
    { intros p r' Hr Hlen Hall.
      assert (Hs : Re.match_repeat hex_class 6 false r = Some (false, r')).
      { apply match_repeat_class_Some. split; [reflexivity|]. now exists p. }
      congruence. }
    intros [H|(s0 & H & Hs)].
    + cbn in H. apply andb_true_iff in H as [H Hall]. apply Nat.eqb_eq in H.
      exfalso. apply (Hnone r ""); [now rewrite append_empty_r|assumption..].
    + destruct s0 as [|h0 r0]; [discriminate|]. cbn in H, Hs.
      injection Hs as _ ->.
      apply andb_true_iff in H as [H Hall].
      apply andb_true_iff in H as [_ H]. apply Nat.eqb_eq in H.
      exfalso. now apply (Hnone r0 LF).
Qed.

(** [validate_state] passes exactly when the colour is a [str] the pattern
    matches and [int(count)] succeeds with a value between [LED_MIN] and
    [LED_MAX]. *)
Lemma accepted_iff color count :
  accepted color count
  <-> (exists s, color = JStr s /\ Re.matches HEX_COLOR_RE s = true)
      /\ exists n, py_int count = Return n /\ 0 <= n <= 8.
Proof.
  unfold accepted, validate_state, LED_MIN, LED_MAX.
  destruct color as [| | | |s| |]; cbn [isinstance_str color_matches negb orb];
    try (split; [discriminate|intros [(s & [=] & _) _]]).
  destruct (Re.matches HEX_COLOR_RE s) eqn:Hs; cbn [negb].
  2:{ split; [discriminate|]. intros [(s' & [= <-] & H) _]. congruence. }
  destruct (py_int count) as [n|x] eqn:Hn.
  2:{ split; [discriminate|]. intros [_ (n & [=] & _)]. }
  destruct ((0 <=? n) && (n <=? 8)) eqn:Hr; cbn [negb].
  - apply andb_true_iff in Hr as [H0 H8].
    apply Z.leb_le in H0, H8.
    split; [intros _|reflexivity]. split; [now exists s|]. now exists n.
  - split; [discriminate|]. intros [_ (n' & [= <-] & H0 & H8)].
    apply Z.leb_le in H0, H8. rewrite H0, H8 in Hr. discriminate.
Qed.

(** A colour that is not a [str], or that the pattern does not match, is
    refused with the colour message, whatever the count. *)
Lemma validate_state_bad_color color count :
  color_matches color = false ->
  validate_state color count = (false, msg_color).
Proof.
  intros H. unfold validate_state. rewrite H.
  now rewrite orb_true_r.
Qed.

(** *** [int()] on a string of digits *)

Lemma decode_digits s :
  forallb Spec.is_ascii_digit (list_ascii_of_string s) = true ->
  Utf8.decode s = Some (map N_of_ascii (list_ascii_of_string s)).
Proof.
  induction s as [|c s IH]; intros H; [reflexivity|].
  cbn [list_ascii_of_string forallb] in H.
  apply andb_true_iff in H as [Hc Hs].
  unfold Spec.is_ascii_digit in Hc. apply andb_true_iff in Hc as [_ Hc].
  apply N.leb_le in Hc.
  cbn [Utf8.decode list_ascii_of_string map].
  assert (Hlt : (N_of_ascii c <? 128)%N = true) by (apply N.ltb_lt; lia).
  rewrite Hlt, (IH Hs). reflexivity.
Qed.

Lemma transform_digits cs :
  forallb PyLong.is_digit cs = true -> PyLong.transform cs = Some cs.
Proof.
  induction cs as [|c cs IH]; intros H; [reflexivity|].
  cbn [forallb] in H. apply andb_true_iff in H as [Hc Hs].
  unfold PyLong.is_digit in Hc. apply andb_true_iff in Hc as [_ Hc].
  apply N.leb_le in Hc.
  cbn [PyLong.transform].
  assert (Hlt : (c <? 127)%N = true) by (apply N.ltb_lt; lia).
  rewrite Hlt, (IH Hs). reflexivity.
Qed.

Lemma scan_digits_all cs : forall acc n,
  forallb PyLong.is_digit cs = true ->
  PyLong.scan_digits false acc n cs
  = Some (fold_left (fun a c => 10 * a + (Z.of_N c - 48)) cs acc,
          (n + length cs)%nat, []).
Proof.
  induction cs as [|c cs IH]; intros acc n H.
  - cbn. now rewrite Nat.add_0_r.
  - cbn [forallb] in H. apply andb_true_iff in H as [Hc Hs].
    cbn [PyLong.scan_digits fold_left length]. rewrite Hc, (IH _ _ Hs).
    now rewrite Nat.add_succ_r.
Qed.

Lemma fold_left_map_codes (l : list ascii) (a : Z) :
  fold_left (fun a c => 10 * a + (Z.of_N c - 48)) (map N_of_ascii l) a
  = fold_left (fun a c => 10 * a + (Z.of_N (N_of_ascii c) - 48)) l a.
Proof. revert a. induction l as [|c l IH]; intros a; cbn; [reflexivity|apply IH]. Qed.

Lemma length_list_ascii_of_string s :
  length (list_ascii_of_string s) = String.length s.
Proof. induction s as [|c s IH]; cbn; [reflexivity|now rewrite IH]. Qed.

(** On a string of at most [max_str_digits] digits, [int()] returns the
    number the digits denote. *)
Lemma of_str_digit_string s :
  Spec.digit_string s = true ->
  (String.length s <= PyLong.max_str_digits)%nat ->
  PyLong.of_str s = Some (Spec.decimal_value s).
Proof.
  unfold Spec.digit_string. intros H Hlen.
  apply andb_true_iff in H as [Hne Hall].
  unfold PyLong.of_str. rewrite decode_digits by assumption.
  assert (Hdig : forallb PyLong.is_digit (map N_of_ascii (list_ascii_of_string s)) = true).
  { clear -Hall. induction (list_ascii_of_string s) as [|c l IH]; [reflexivity|].
    cbn [forallb map] in Hall |- *. apply andb_true_iff in Hall as [Hc Hl].
    apply andb_true_iff. split; [exact Hc|exact (IH Hl)]. }
  rewrite transform_digits by assumption.
  destruct s as [|c s]; [discriminate|]. clear Hne.
  cbn [list_ascii_of_string map] in Hdig |- *.
  pose proof Hdig as Hdig'. cbn [forallb] in Hdig'.
  apply andb_true_iff in Hdig' as [Hc _].
  unfold PyLong.is_digit in Hc. apply andb_true_iff in Hc as [Hc1 Hc2].
  apply N.leb_le in Hc1, Hc2.
  unfold PyLong.from_string.
  assert (Hsp : PyLong.Py_ISSPACE (N_of_ascii c) = false).
  { unfold PyLong.Py_ISSPACE. apply orb_false_iff. split.
    - apply andb_false_iff. right. apply N.leb_gt. lia.
    - apply N.eqb_neq. lia. }
  cbn [PyLong.skip_space]. rewrite Hsp.
  unfold PyLong.split_sign.
  assert (H43 : (N_of_ascii c =? 43)%N = false) by (apply N.eqb_neq; lia).
  assert (H45 : (N_of_ascii c =? 45)%N = false) by (apply N.eqb_neq; lia).
  assert (H95 : (N_of_ascii c =? 95)%N = false) by (apply N.eqb_neq; lia).
  rewrite H43, H45. unfold PyLong.starts_with_underscore. rewrite H95.
  rewrite scan_digits_all by assumption.
  cbn [length Nat.add Nat.eqb].
  rewrite length_map, length_list_ascii_of_string.
  cbn [String.length] in Hlen.
  assert (Hmax : (PyLong.max_str_digits <? S (String.length s))%nat = false)
    by (apply Nat.ltb_ge; exact Hlen).
  rewrite Hmax. cbn [PyLong.skip_space].
  unfold Spec.decimal_value. cbn [list_ascii_of_string].
  now rewrite <- fold_left_map_codes.
Qed.

(** *** [int()] on a float *)

Lemma of_float_in_range_pos m e :
  0 <= Z.shiftl (Z.pos m) e <= 8 <-> magnitude_lt m e 9.
Proof.
  unfold magnitude_lt.
  destruct (Z.leb_spec 0 e) as [He|He].
  - rewrite Z.shiftl_mul_pow2 by assumption.
    rewrite Z.max_l, Z.max_r by lia. rewrite Z.pow_0_r.
    assert (0 < 2 ^ e) by (apply Z.pow_pos_nonneg; lia). nia.
  - rewrite Z.shiftl_div_pow2 by lia.
    rewrite Z.max_r, Z.max_l by lia. rewrite Z.pow_0_r.
    assert (Hd : 0 < 2 ^ (- e)) by (apply Z.pow_pos_nonneg; lia).
    pose proof (Z.div_mod (Z.pos m) (2 ^ (- e)) ltac:(lia)) as Hdm.
    pose proof (Z.mod_pos_bound (Z.pos m) (2 ^ (- e)) Hd) as Hmb.
    pose proof (Z.div_pos (Z.pos m) (2 ^ (- e)) ltac:(lia) Hd) as Hq.
    nia.
Qed.

Lemma of_float_in_range_neg m e :
  0 <= - Z.shiftl (Z.pos m) e <= 8 <-> magnitude_lt m e 1.
Proof.
  unfold magnitude_lt.
  destruct (Z.leb_spec 0 e) as [He|He].
  - rewrite Z.shiftl_mul_pow2 by assumption.
    rewrite Z.max_l, Z.max_r by lia. rewrite Z.pow_0_r.
    assert (0 < 2 ^ e) by (apply Z.pow_pos_nonneg; lia). nia.
  - rewrite Z.shiftl_div_pow2 by lia.
    rewrite Z.max_r, Z.max_l by lia. rewrite Z.pow_0_r.
    assert (Hd : 0 < 2 ^ (- e)) by (apply Z.pow_pos_nonneg; lia).
    pose proof (Z.div_mod (Z.pos m) (2 ^ (- e)) ltac:(lia)) as Hdm.
    pose proof (Z.mod_pos_bound (Z.pos m) (2 ^ (- e)) Hd) as Hmb.
    pose proof (Z.div_pos (Z.pos m) (2 ^ (- e)) ltac:(lia) Hd) as Hq.
    nia.
Qed.

Lemma decimal_value_nonneg s :
  forallb Spec.is_ascii_digit (list_ascii_of_string s) = true ->
  0 <= Spec.decimal_value s.
Proof.
  unfold Spec.decimal_value.
  assert (H : forall l a, 0 <= a ->
            forallb Spec.is_ascii_digit l = true ->
            0 <= fold_left (fun a c => 10 * a + (Z.of_N (N_of_ascii c) - 48)) l a).
  { induction l as [|c l IH]; intros a Ha Hl; [exact Ha|].
    cbn [forallb] in Hl. apply andb_true_iff in Hl as [Hc Hl].
    unfold Spec.is_ascii_digit in Hc. apply andb_true_iff in Hc as [Hc _].
    apply N.leb_le in Hc. cbn [fold_left]. apply IH; [lia|assumption]. }
  intros Hall. now apply H.
Qed.

(** C7, as the code has it.  With a colour that passes, [validate_state]
    accepts a count exactly when [int(count)] succeeds with a value in
    [0, 8].  By type of the count: an integer in [0, 8]; either boolean; a
    float that is zero or finite with value strictly between -1 and 9,
    integral or not (it is truncated towards zero); a string that [int()]
    parses to a value in [0, 8], among them every string of at most
    [max_str_digits] digits denoting at most 8.  Not-a-number, the
    infinities, [null], arrays and objects are refused. *)
Theorem count_acceptance s :
  Re.matches HEX_COLOR_RE s = true ->
  let ok := accepted (JStr s) in
  (forall count, ok count <-> exists n, py_int count = Return n /\ 0 <= n <= 8)
  /\ (forall n, ok (JInt n) <-> 0 <= n <= 8)
  /\ (forall b, ok (JBool b))
  /\ (forall sg, ok (JFloat (S754_zero sg)))
  /\ (forall sg m e,
        ok (JFloat (S754_finite sg m e))
        <-> magnitude_lt m e (if sg then 1 else 9))
  /\ ~ ok (JFloat S754_nan)
  /\ (forall sg, ~ ok (JFloat (S754_infinity sg)))
  /\ (forall t, ok (JStr t)
                <-> exists n, PyLong.of_str t = Some n /\ 0 <= n <= 8)
  /\ (forall t, Spec.digit_string t = true ->
                (String.length t <= PyLong.max_str_digits)%nat ->
                (ok (JStr t) <-> Spec.decimal_value t <= 8))
  /\ ~ ok JNull
  /\ (forall l, ~ ok (JArr l))
  /\ (forall m, ~ ok (JObj m)).
Proof.
  intros Hs ok.
  assert (Hiff : forall count,
            ok count <-> exists n, py_int count = Return n /\ 0 <= n <= 8).
  { intros count. unfold ok. rewrite accepted_iff. split.
    - now intros [_ H].
    - intros H. split; [now exists s|exact H]. }
  split; [exact Hiff|].
  split.
  { intros n. rewrite Hiff. cbn. split.
    - now intros (n' & [= <-] & H).
    - intros H. now exists n. }
  split.
  { intros b. apply Hiff. cbn. exists (if b then 1 else 0).
    split; [reflexivity|destruct b; lia]. }
  split.
  { intros sg. apply Hiff. cbn. exists 0. split; [reflexivity|lia]. }
  split.
  { intros sg m e. rewrite Hiff. cbn.
    destruct sg.
    - rewrite <- of_float_in_range_neg. split.
      + now intros (n & [= <-] & H).
      + intros H. eexists. split; [reflexivity|exact H].
    - rewrite <- of_float_in_range_pos. split.
      + now intros (n & [= <-] & H).
      + intros H. eexists. split; [reflexivity|exact H]. }
  split.
  { rewrite Hiff. cbn. now intros (n & [=] & _). }
  split.
  { intros sg. rewrite Hiff. cbn. now intros (n & [=] & _). }
  split.
  { intros t. rewrite Hiff. cbn. destruct (PyLong.of_str t) as [v|].
    - split; intros (n & [= <-] & H); now exists v.
    - split; now intros (n & [=] & _). }
  split.
  { intros t Hd Hlen. rewrite Hiff. cbn.
    rewrite of_str_digit_string by assumption.
    unfold Spec.digit_string in Hd. apply andb_true_iff in Hd as [_ Hd].
    pose proof (decimal_value_nonneg t Hd) as H0.
    split.
    - intros (n & [= <-] & H). lia.
    - intros H. eexists. split; [reflexivity|lia]. }
  split.
  { rewrite Hiff. cbn. now intros (n & [=] & _). }
  split.
  { intros l. rewrite Hiff. cbn. now intros (n & [=] & _). }
  intros m. rewrite Hiff. cbn. now intros (n & [=] & _).
Qed.

Lemma count_acceptance_witness :
  Re.matches HEX_COLOR_RE "#00ff00" = true
  /\ accepted (JStr "#00ff00") (JFloat three_and_a_half)
  /\ accepted (JStr "#00ff00") (JBool true)
  /\ ~ accepted (JStr "#00ff00") JNull.
Proof.
  pose proof (count_acceptance "#00ff00" eq_refl)
    as (_ & _ & Hb & _ & Hf & _ & _ & _ & _ & Hn & _).
  split; [reflexivity|]. split; [|split; [apply Hb|exact Hn]].
  apply Hf. unfold magnitude_lt. vm_compute. reflexivity.
Defined.

(** C7, as the claim has it, fails: 3.5 is a float without integral value,
    so the rules of the claim refuse it, yet [validate_state] accepts it
    ([int(3.5)] is 3). *)
Lemma non_integral_float_accepted :
  valid_binary 53 1024 three_and_a_half = true
  /\ Spec.float_integral three_and_a_half = None
  /\ Spec.count_ok (JFloat three_and_a_half) = false
  /\ py_int (JFloat three_and_a_half) = Return 3
  /\ validate_state (JStr "#000000") (JFloat three_and_a_half) = (true, "").
Proof. repeat split; vm_compute; reflexivity. Qed.

(** C8.  The colour [#ff0000] followed by a line feed is not of the form
    [#RRGGBB], yet [validate_state] accepts it: [$] also matches just
    before a final line feed.  The write goes through and the colour is
    stored with its line feed. *)
Theorem trailing_newline_color_accepted :
  let color := "#ff0000" +:+ LF in
  let rq := post_json (JObj {[ "color" := JStr color; "count" := JInt 3 ]}) in
  Spec.is_rrggbb color = false
  /\ validate_state (JStr color) (JInt 3) = (true, "")
  /\ (exists out w',
        set_state rq calm blank = (Return (Response 200 (JObj out)), w')
        /\ out !! "color" = Some (JStr color)
        /\ exists st, files w' !! STATE_FILE = Some (JsonText (JObj st))
                      /\ st !! "color" = Some (JStr color)).
Proof.
  intros color rq. split; [reflexivity|]. split; [reflexivity|].
  do 2 eexists. split; [vm_compute; reflexivity|].
  split; [reflexivity|]. eexists. split; reflexivity.
Qed.

(** ** [set_state] *)

(** The payload is an object: the body itself when it is a non-empty
    object, the empty object when the body is missing, is not JSON, or is a
    JSON value Python takes for false. *)
Lemma payload_of_cases r :
  (exists m, payload_of r = JObj m)
  \/ (truthy (get_json_silent r) = true
      /\ payload_of r = get_json_silent r
      /\ forall m, get_json_silent r <> JObj m).
Proof.
  unfold payload_of, py_or.
  destruct (truthy (get_json_silent r)) eqn:Ht; [|left; now exists ∅].
  destruct (get_json_silent r) eqn:Hv;
    try (right; repeat split; intros; discriminate).
  left. now eexists.
Qed.

(** A payload that is not an object has no [get]: the handler raises. *)
Lemma set_state_not_object r e w :
  (forall m, payload_of r <> JObj m) ->
  set_state r e w = (Raise AttributeError, w).
Proof.
  intros Hno. unfold set_state, bind, lift, dict_get.
  destruct (payload_of r); try reflexivity. now destruct (Hno m).
Qed.

(** A payload that fails validation is answered with 400 and the reason;
    the world is not touched. *)
Lemma set_state_rejects r e w m msg :
  payload_of r = JObj m ->
  validate_state (default JNull (m !! "color")) (default JNull (m !! "count"))
  = (false, msg) ->
  set_state r e w
  = (Return (Response 400 (JObj {[ "ok" := JBool false; "error" := JStr msg ]})),
     w).
Proof.
  intros Hp Hv. unfold set_state, bind, lift, dict_get.
  rewrite Hp. cbv beta iota. rewrite Hv. reflexivity.
Qed.

(** A payload that passes validation: the record [load_state] returns is
    updated, serialised and handed to [atomic_write]; the answer is 200 with
    the new record when the write goes through, the write's error otherwise.
    When [json.dumps] refuses the record, [ValueError] is raised and no file
    is touched. *)
Lemma set_state_valid_run r e w m n st w1 rv :
  payload_of r = JObj m ->
  accepted (default JNull (m !! "color")) (default JNull (m !! "count")) ->
  py_int (default JNull (m !! "count")) = Return n ->
  load_state e w = (Return (JObj st), w1) ->
  py_int (default (JInt 1) (st !! "rev")) = Return rv ->
  let st' : gmap string json :=
    <["updated_at" := JStr (clock e (ticks w1))]>
      (<["rev" := JInt (rv + 1)]>
         (<["count" := JInt n]>
            (<["color" := default JNull (m !! "color")]> st))) in
  set_state r e w
  = if serialisable (JObj st') then
      match atomic_write STATE_FILE (JsonText (JObj st')) e
              (World (files w1) (S (ticks w1))) with
      | (Return _, w2) =>
        (Return (Response 200 (JObj (st' ∪ {["ok" := JBool true]}))), w2)
      | (Raise x, w2) => (Raise x, w2)
      end
    else (Raise ValueError, World (files w1) (S (ticks w1))).
Proof.
  intros Hp Hv Hn Hl Hr st'. unfold set_state, bind, lift, dict_get.
  rewrite Hp. cbv beta iota. rewrite Hv. cbv beta iota. cbn [negb].
  rewrite Hl. cbn [dict_setitem]. rewrite Hn. cbv beta iota.
  rewrite lookup_insert_ne by discriminate.
  rewrite lookup_insert_ne by discriminate.
  rewrite Hr. cbv beta iota. unfold now_iso, json_dumps. cbn [files ticks].
  fold st'.
  destruct (serialisable (JObj st')); [|reflexivity].
  destruct (atomic_write STATE_FILE (JsonText (JObj st')) e
              {| files := files w1; ticks := S (ticks w1) |}) as [[[]|x] w2];
    reflexivity.
Qed.

(** [load_state] raising makes [set_state] raise. *)
Lemma set_state_load_raises r e w m x w1 :
  payload_of r = JObj m ->
  accepted (default JNull (m !! "color")) (default JNull (m !! "count")) ->
  load_state e w = (Raise x, w1) ->
  set_state r e w = (Raise x, w1).
Proof.
  intros Hp Hv Hl. unfold set_state, bind, lift, dict_get.
  rewrite Hp. cbv beta iota. rewrite Hv. cbv beta iota. cbn [negb].
  now rewrite Hl.
Qed.

(** The outcomes of [validate_state]: a pass, or one of three reasons. *)
Lemma validate_state_outcomes color count :
  validate_state color count = (true, "")
  \/ validate_state color count = (false, msg_color)
  \/ validate_state color count = (false, msg_count_int)
  \/ validate_state color count = (false, msg_count_range).
Proof.
  unfold validate_state.
  destruct (negb (isinstance_str color) || negb (color_matches color)); [auto|].
  destruct (py_int count) as [n|x]; [|auto].
  destruct (negb ((LED_MIN <=? n) && (n <=? LED_MAX))); auto.
Qed.

(** C10, as the code has it.  A write whose colour is not a string the
    pattern matches is answered with status 400 and the body
    [{"ok": false, "error": "color inválido — usa formato #RRGGBB"}]; the
    world is left as it was. *)
Theorem invalid_color_reason r e w m :
  payload_of r = JObj m ->
  color_matches (default JNull (m !! "color")) = false ->
  set_state r e w
  = (Return (Response 400
       (JObj {[ "ok" := JBool false;
                "error" := JStr "color inválido — usa formato #RRGGBB" ]})),
     w).
Proof.
  intros Hp Hc. apply (set_state_rejects r e w m); [assumption|].
  now apply validate_state_bad_color.
Qed.

Lemma invalid_color_reason_witness :
  let rq := post_json (JObj {[ "color" := JStr "blue"; "count" := JInt 3 ]}) in
  set_state rq calm with_green3
  = (Return (Response 400
       (JObj {[ "ok" := JBool false;
                "error" := JStr "color inválido — usa formato #RRGGBB" ]})),
     with_green3).
Proof.
  intros rq.
  apply (invalid_color_reason rq calm with_green3
           {[ "color" := JStr "blue"; "count" := JInt 3 ]});
    reflexivity.
Defined.

(** C10, as the claim has it, fails: for the colour ["blue"] the reason in
    the body is not the English sentence of the claim. *)
Lemma color_reason_not_english :
  let rq := post_json (JObj {[ "color" := JStr "blue"; "count" := JInt 3 ]}) in
  fst (set_state rq calm blank)
  <> Return (Response 400
       (JObj {[ "ok" := JBool false;
                "error" := JStr "invalid color — use #RRGGBB format" ]})).
Proof.
  intros rq H.
  assert (Hbody : forall out,
            fst (set_state rq calm blank) = Return (Response 400 (JObj out)) ->
            out !! "error" = Some (JStr msg_color)).
  { intros out Hout. vm_compute in Hout. injection Hout as <-. reflexivity. }
  specialize (Hbody _ H). vm_compute in Hbody. discriminate Hbody.
Qed.

(** C2.  A body that is JSON but neither an object nor a value Python takes
    for false, such as the array [[1]], is not treated as empty input: the
    handler raises [AttributeError] (Flask answers 500, not 400).  Nothing
    is written. *)
Theorem array_body_raises e w :
  payload_of (post_json (JArr [JInt 1])) = JArr [JInt 1]
  /\ set_state (post_json (JArr [JInt 1])) e w = (Raise AttributeError, w).
Proof. split; reflexivity. Qed.

(** What does hold for C2: when the payload is an object (the body itself,
    or the empty object standing in for a missing, non-JSON or false-like
    body) and validation fails, the answer is 400 with one of the three
    reasons, and the world after is the world before, so that a later
    [load_state] sees what it would have seen. *)
Lemma rejected_write_changes_nothing r e w m :
  payload_of r = JObj m ->
  ~ accepted (default JNull (m !! "color")) (default JNull (m !! "count")) ->
  exists msg,
    set_state r e w
    = (Return (Response 400 (JObj {[ "ok" := JBool false; "error" := JStr msg ]})),
       w)
    /\ (msg = msg_color \/ msg = msg_count_int \/ msg = msg_count_range).
Proof.
  intros Hp Hno.
  destruct (validate_state_outcomes (default JNull (m !! "color"))
              (default JNull (m !! "count"))) as [H|[H|[H|H]]];
    [now destruct Hno|..];
    eexists; (split; [apply (set_state_rejects r e w m); eassumption|auto]).
Qed.

(** A missing body, a body that is not JSON and a false-like JSON body all
    yield the empty payload, hence the colour reason. *)
Lemma empty_payload_rejected r e w :
  truthy (get_json_silent r) = false ->
  set_state r e w
  = (Return (Response 400
       (JObj {[ "ok" := JBool false; "error" := JStr msg_color ]})), w).
Proof.
  intros Ht. apply (set_state_rejects r e w ∅).
  - unfold payload_of, py_or. now rewrite Ht.
  - reflexivity.
Qed.

(** ** Writes that go through *)

(** While writes are honoured and the stored [rev] is one [int()] accepts,
    [load_state] returns a record whose [rev] [int()] accepts. *)
Lemma load_state_rev_usable e w :
  writes_ok e ->
  stored_rev_usable w ->
  exists st w1 rv,
    load_state e w = (Return (JObj st), w1)
    /\ py_int (default (JInt 1) (st !! "rev")) = Return rv.
Proof.
  intros Hok Huse.
  destruct (storage_cases e w) as [Hbad|(Ho & m & Hf)].
  - rewrite load_state_regenerates by assumption.
    do 2 eexists. exists 1. split; reflexivity.
  - rewrite (load_state_object e w m); try assumption; [|apply Hok].
    do 2 eexists.
    destruct (m !! "rev") as [v|] eqn:Hv.
    + destruct (Huse m v Hf Hv) as [rv Hrv]. exists rv.
      split; [reflexivity|]. rewrite lookup_union, Hv.
      now destruct (default_record _ !! "rev").
    + exists 1. split; [reflexivity|]. now rewrite lookup_union, Hv.
Qed.

Lemma is_rrggbb_matches s :
  Spec.is_rrggbb s = true -> Re.matches HEX_COLOR_RE s = true.
Proof. intros H. apply HEX_COLOR_RE_matches. now left. Qed.

(** Storage whose documents [json] can read, with room for one more
    revision: [load_state] returns a record that [json.dumps] accepts, with
    a [rev] that [int()] accepts and that can be incremented. *)
Lemma load_state_has_room e w :
  writes_ok e ->
  storage_parsable w ->
  stored_rev_has_room w ->
  exists st w1 rv,
    load_state e w = (Return (JObj st), w1)
    /\ py_int (default (JInt 1) (st !! "rev")) = Return rv
    /\ Z.abs (rv + 1) < int_limit
    /\ serialisable (JObj st) = true.
Proof.
  intros Hok Hpars Hroom. pose proof int_limit_above_8 as Hlim.
  destruct (storage_cases e w) as [Hbad|(Ho & m & Hf)].
  - rewrite load_state_regenerates by assumption.
    do 2 eexists. exists 1. split; [reflexivity|]. split; [reflexivity|].
    split; [lia|apply default_record_serialisable].
  - rewrite (load_state_object e w m); try assumption; [|apply Hok].
    assert (Hser : serialisable (JObj (m ∪ default_record (clock e (ticks w))))
                   = true).
    { apply serialisable_union; [now apply Hpars|apply default_record_serialisable]. }
    do 2 eexists.
    destruct (m !! "rev") as [v|] eqn:Hv.
    + destruct (Hroom m v Hf Hv) as (rv & Hrv & Hlt). exists rv.
      split; [reflexivity|]. rewrite lookup_union, Hv.
      destruct (default_record _ !! "rev"); cbn; auto.
    + exists 1. split; [reflexivity|]. rewrite lookup_union, Hv.
      split; [reflexivity|]. split; [lia|assumption].
Qed.

(** The successor of the largest integer of 4300 digits has 4301. *)
Lemma successor_beyond_limit :
  serialisable (JInt (10 ^ 4300 - 1 + 1)) = false.
Proof. vm_compute. reflexivity. Qed.

(** C1, as claimed, fails: with a stored [rev] of [10^4300 - 1] (4300
    digits, which [json.load] reads and [int()] accepts) a write of a valid
    colour and count does not succeed.  The next revision has 4301 digits,
    [json.dumps] raises [ValueError] (Flask answers 500), and the files are
    left as they were. *)
Lemma write_at_revision_limit_raises :
  let old : gmap string json := <["rev" := JInt (10 ^ 4300 - 1)]> green3 in
  let w := World {[ STATE_FILE := JsonText (JObj old) ]} 0 in
  let rq := post_json (JObj {[ "color" := JStr "#0000ff"; "count" := JInt 8 ]}) in
  Spec.is_rrggbb "#0000ff" = true
  /\ Spec.count_ok (JInt 8) = true
  /\ serialisable (JObj old) = true
  /\ exists w', set_state rq calm w = (Raise ValueError, w')
                /\ files w' = files w.
Proof.
  intros old w rq. split; [reflexivity|]. split; [reflexivity|].
  split.
  { apply serialisable_insert; [vm_compute|]; reflexivity. }
  exists (World (files w) 2). split; [|reflexivity].
  rewrite (set_state_valid_run rq calm w
             {[ "color" := JStr "#0000ff"; "count" := JInt 8 ]} 8
             (old ∪ default_record (clock calm (ticks w)))
             (World (files w) 1) (10 ^ 4300 - 1)).
  - match goal with |- (if ?b then _ else _) = _ => destruct b eqn:Hser end;
      [|reflexivity].
    apply (serialisable_lookup _ "rev" (JInt (10 ^ 4300 - 1 + 1))) in Hser.
    + rewrite successor_beyond_limit in Hser. discriminate Hser.
    + rewrite lookup_insert_ne by discriminate. apply lookup_insert_eq.
  - reflexivity.
  - reflexivity.
  - reflexivity.
  - now apply load_state_object.
  - rewrite lookup_union. unfold old. rewrite lookup_insert_eq. reflexivity.
Qed.

(** C1, amended.  A write whose colour is of the form [#RRGGBB] and whose
    count [int()] takes to an integer in [0, 8] succeeds when the stored
    [rev], if any, is one [int()] accepts and its successor has at most 4300
    digits: the answer is 200, its [color] is the colour sent and its
    [count] the integer, and storage holds a record with that colour and
    count.  (Assumed of the surroundings: writes are honoured, and the
    document in storage is one [json.load] reads.) *)
Theorem valid_write_succeeds r e w m s n :
  writes_ok e ->
  storage_parsable w ->
  stored_rev_has_room w ->
  payload_of r = JObj m ->
  m !! "color" = Some (JStr s) ->
  Spec.is_rrggbb s = true ->
  py_int (default JNull (m !! "count")) = Return n ->
  0 <= n <= 8 ->
  exists out w',
    set_state r e w = (Return (Response 200 (JObj out)), w')
    /\ out !! "color" = Some (JStr s)
    /\ out !! "count" = Some (JInt n)
    /\ exists st, files w' !! STATE_FILE = Some (JsonText (JObj st))
                  /\ st !! "color" = Some (JStr s)
                  /\ st !! "count" = Some (JInt n).
Proof.
  intros Hok Hpars Hroom Hp Hc Hs Hn Hrange.
  assert (Hacc : accepted (default JNull (m !! "color"))
                          (default JNull (m !! "count"))).
  { apply accepted_iff. rewrite Hc. cbn [default]. split.
    - exists s. split; [reflexivity|now apply is_rrggbb_matches].
    - now exists n. }
  destruct (load_state_has_room e w Hok Hpars Hroom)
    as (st & w1 & rv & Hl & Hrv & Hlt & Hser).
  rewrite (set_state_valid_run r e w m n st w1 rv Hp Hacc Hn Hl Hrv).
  rewrite Hc. cbn [default]. change (id (JStr s)) with (JStr s).
  rewrite written_record_serialisable by assumption.
  rewrite atomic_write_ok by assumption. cbn [files].
  assert (Hcolor : forall (a b c : json) (t : gmap string json),
            <["updated_at" := a]> (<["rev" := b]> (<["count" := c]>
              (<["color" := JStr s]> t))) !! "color" = Some (JStr s)).
  { intros. rewrite !lookup_insert_ne by discriminate. apply lookup_insert_eq. }
  assert (Hcount : forall (a b : json) (t : gmap string json),
            <["updated_at" := a]> (<["rev" := b]> (<["count" := JInt n]> t))
              !! "count" = Some (JInt n)).
  { intros. rewrite !lookup_insert_ne by discriminate. apply lookup_insert_eq. }
  do 2 eexists. split; [reflexivity|].
  split; [now rewrite lookup_union, Hcolor|].
  split; [now rewrite lookup_union, Hcount|].
  eexists. split; [apply lookup_insert_eq|]. split; [apply Hcolor|apply Hcount].
Qed.

Lemma valid_write_succeeds_witness :
  let rq := post_json (JObj {[ "color" := JStr "#00ff00"; "count" := JStr "3" ]}) in
  exists out w',
    set_state rq calm rev_only = (Return (Response 200 (JObj out)), w')
    /\ out !! "color" = Some (JStr "#00ff00")
    /\ out !! "count" = Some (JInt 3)
    /\ exists st, files w' !! STATE_FILE = Some (JsonText (JObj st))
                  /\ st !! "color" = Some (JStr "#00ff00")
                  /\ st !! "count" = Some (JInt 3).
Proof.
  intros rq.
  apply (valid_write_succeeds rq calm rev_only
           {[ "color" := JStr "#00ff00"; "count" := JStr "3" ]} "#00ff00" 3).
  - repeat split; reflexivity.
  - intros v Hv. vm_compute in Hv. injection Hv as <-. reflexivity.
  - intros m v Hm Hv. vm_compute in Hm. injection Hm as <-.
    vm_compute in Hv. injection Hv as <-. exists 7.
    split; [reflexivity|]. apply Z.ltb_lt. reflexivity.
  - reflexivity.
  - reflexivity.
  - reflexivity.
  - vm_compute. reflexivity.
  - lia.
Defined.

(** ** The revision counter *)

Lemma stored_rev_same_target w w' :
  files w' !! STATE_FILE = files w !! STATE_FILE ->
  stored_rev w' = stored_rev w.
Proof. unfold stored_rev. now intros ->. Qed.

Lemma stored_rev_object w r :
  stored_rev w = Some r ->
  exists m, files w !! STATE_FILE = Some (JsonText (JObj m))
            /\ m !! "rev" = Some (JInt r).
Proof.
  unfold stored_rev. intros H.
  destruct (files w !! STATE_FILE) as [[[]|]|]; try discriminate.
  exists m. split; [reflexivity|].
  destruct (m !! "rev") as [[]|]; try discriminate. now injection H as ->.
Qed.

Lemma load_state_makedirs_refused e w :
  fails e Makedirs = true -> load_state e w = (Raise OSError, w).
Proof. intros H. unfold load_state, bind, os_makedirs. now rewrite H. Qed.

(** What [load_state] does when storage holds a record with an integer
    [rev] and can be read: it raises before touching anything, or returns
    the record with that [rev] and writes nothing. *)
Lemma load_state_with_rev e w r :
  fails e Open = false ->
  stored_rev w = Some r ->
  load_state e w = (Raise OSError, w)
  \/ exists st,
       load_state e w = (Return (JObj st), World (files w) (S (ticks w)))
       /\ st !! "rev" = Some (JInt r).
Proof.
  intros Ho Hr. destruct (stored_rev_object w r Hr) as (m & Hf & Hm).
  destruct (fails e Makedirs) eqn:Hd.
  - left. now apply load_state_makedirs_refused.
  - right. rewrite (load_state_object e w m) by assumption.
    eexists. split; [reflexivity|].
    rewrite lookup_union, Hm. now destruct (default_record _ !! "rev").
Qed.

(** The three ways [set_state] can end when storage holds a record with
    integer [rev] [r] and can be read: an exception with the target
    untouched; a 400 with the world untouched; a 200 whose record, now in
    storage, has [rev] [r + 1]. *)
Lemma set_state_outcomes rq e w r :
  fails e Open = false ->
  stored_rev w = Some r ->
  (exists x w', set_state rq e w = (Raise x, w')
                /\ files w' !! STATE_FILE = files w !! STATE_FILE)
  \/ (exists msg,
        set_state rq e w
        = (Return (Response 400
             (JObj {[ "ok" := JBool false; "error" := JStr msg ]})), w))
  \/ (exists st w',
        set_state rq e w
        = (Return (Response 200 (JObj (st ∪ {["ok" := JBool true]}))), w')
        /\ files w' !! STATE_FILE = Some (JsonText (JObj st))
        /\ st !! "rev" = Some (JInt (r + 1))).
Proof.
  intros Ho Hr.
  destruct (payload_of_cases rq) as [[m Hp]|(_ & Heq & Hno)].
  2:{ left. exists AttributeError, w. split; [|reflexivity].
      apply set_state_not_object. intros m Hm.
      apply (Hno m). now rewrite <- Heq. }
  destruct (validate_state_outcomes (default JNull (m !! "color"))
              (default JNull (m !! "count"))) as [Hv|Hv].
  2:{ right. left.
      destruct Hv as [Hv|[Hv|Hv]]; eexists;
        apply (set_state_rejects rq e w m); eassumption. }
  pose proof Hv as Hacc. apply accepted_iff in Hacc as [_ (n & Hn & _)].
  destruct (load_state_with_rev e w r Ho Hr) as [Hl|(st & Hl & Hst)].
  { left. exists OSError, w. split; [|reflexivity].
    now apply (set_state_load_raises rq e w m). }
  assert (Hrv : py_int (default (JInt 1) (st !! "rev")) = Return r)
    by now rewrite Hst.
  rewrite (set_state_valid_run rq e w m n st _ r Hp Hv Hn Hl Hrv).
  cbn [files ticks].
  destruct (serialisable _).
  2:{ left. exists ValueError. eexists. split; reflexivity. }
  match goal with
  | |- context [atomic_write STATE_FILE ?t e ?w0] =>
    destruct (atomic_write_cases e w0 t) as [Hw|(w' & Hw & Hkeep & _)];
      rewrite Hw
  end.
  - right. right. do 2 eexists. split; [reflexivity|].
    cbn [files]. split; [apply lookup_insert_eq|].
    rewrite lookup_insert_ne by discriminate. apply lookup_insert_eq.
  - left. exists OSError, w'. split; [reflexivity|exact Hkeep].
Qed.

(** A valid write on a readable record with integer [rev] [r], in an
    environment that honours writes, goes through when [r + 1] is within
    the limit: the answer is 200 and the record with [rev] [r + 1] is in
    storage. *)
Lemma set_state_increments rq e w r m :
  writes_ok e ->
  fails e Open = false ->
  storage_parsable w ->
  stored_rev w = Some r ->
  Z.abs (r + 1) < int_limit ->
  payload_of rq = JObj m ->
  accepted (default JNull (m !! "color")) (default JNull (m !! "count")) ->
  exists st w',
    set_state rq e w
    = (Return (Response 200 (JObj (st ∪ {["ok" := JBool true]}))), w')
    /\ files w' !! STATE_FILE = Some (JsonText (JObj st))
    /\ st !! "rev" = Some (JInt (r + 1)).
Proof.
  intros Hok Ho Hpars Hr Hlt Hp Hv.
  pose proof Hv as Hacc.
  apply accepted_iff in Hacc as [(s & Hs & _) (n & Hn & Hrange)].
  destruct (stored_rev_object w r Hr) as (m0 & Hf & Hm0).
  pose proof (load_state_object e w m0 (proj1 Hok) Ho Hf) as Hl.
  assert (Hrv : py_int (default (JInt 1)
                  ((m0 ∪ default_record (clock e (ticks w))) !! "rev"))
                = Return r).
  { rewrite lookup_union, Hm0. now destruct (default_record _ !! "rev"). }
  rewrite (set_state_valid_run rq e w m n _ _ r Hp Hv Hn Hl Hrv).
  rewrite Hs. rewrite written_record_serialisable; try assumption.
  2:{ apply serialisable_union;
        [now apply Hpars|apply default_record_serialisable]. }
  rewrite atomic_write_ok by assumption.
  do 2 eexists. split; [reflexivity|]. cbn [files].
  split; [apply lookup_insert_eq|].
  rewrite lookup_insert_ne by discriminate. apply lookup_insert_eq.
Qed.

Lemma stored_rev_of_target w st r :
  files w !! STATE_FILE = Some (JsonText (JObj st)) ->
  st !! "rev" = Some (JInt r) ->
  stored_rev w = Some r.
Proof. intros Hf Hr. unfold stored_rev. now rewrite Hf, Hr. Qed.

(** One request never lowers the stored revision, whatever else the
    operating system refuses, as long as storage can be read. *)
Lemma handle_keeps_rev rq e w r :
  fails e Open = false ->
  stored_rev w = Some r ->
  exists r', stored_rev (snd (handle rq e w)) = Some r' /\ r <= r'.
Proof.
  intros Ho Hr. destruct rq as [|rq|]; cbn [handle].
  - unfold get_state, bind.
    destruct (load_state_with_rev e w r Ho Hr) as [Hl|(st & Hl & _)];
      rewrite Hl; cbn [snd ret]; exists r; (split; [|lia]).
    + exact Hr.
    + now rewrite (stored_rev_same_target w).
  - destruct (set_state_outcomes rq e w r Ho Hr)
      as [(x & w' & Hs & Hk)|[(msg & Hs)|(st & w' & Hs & Hf & Hst)]];
      rewrite Hs; cbn [snd].
    + exists r. split; [|lia]. now rewrite (stored_rev_same_target w).
    + exists r. split; [exact Hr|lia].
    + exists (r + 1). split; [|lia]. now apply (stored_rev_of_target w' st).
  - exists r. split; [|lia]. now rewrite (stored_rev_same_target w).
Qed.

(** One request moves the stored revision by exactly one when it is a
    write answered 200, and not at all otherwise. *)
Lemma handle_rev_exact rq e w r :
  fails e Open = false ->
  stored_rev w = Some r ->
  stored_rev (snd (handle rq e w))
  = Some (r + match rq, fst (handle rq e w) with
              | POST_api_state _, Return rsp => if status rsp =? 200 then 1 else 0
              | _, _ => 0
              end).
Proof.
  intros Ho Hr. destruct rq as [|rq|]; cbn [handle].
  - rewrite Z.add_0_r. unfold get_state, bind.
    destruct (load_state_with_rev e w r Ho Hr) as [Hl|(st & Hl & _)];
      rewrite Hl; cbn [snd ret]; [exact Hr|].
    now rewrite (stored_rev_same_target w).
  - destruct (set_state_outcomes rq e w r Ho Hr)
      as [(x & w' & Hs & Hk)|[(msg & Hs)|(st & w' & Hs & Hf & Hst)]];
      rewrite Hs; cbn [fst snd status].
    + rewrite Z.add_0_r. now rewrite (stored_rev_same_target w).
    + now rewrite Z.add_0_r.
    + now apply (stored_rev_of_target w' st).
  - rewrite Z.add_0_r. now rewrite (stored_rev_same_target w).
Qed.

Lemma writes_applied_nonneg trace : forall w, 0 <= writes_applied trace w.
Proof.
  induction trace as [|[e rq] trace IH]; intros w; [reflexivity|].
  cbn [writes_applied]. specialize (IH (snd (handle rq e w))).
  destruct rq; try lia.
  destruct (fst (handle (POST_api_state r) e w)) as [rsp|x]; [|lia].
  destruct (status rsp =? 200); lia.
Qed.

(** C3.  (i) On storage that is absent, [load_state] yields [rev] 1 and
    leaves a record with [rev] 1 in storage.  (ii) A valid write on a stored
    record with [rev] [r] goes through when writes are honoured and [r + 1]
    has at most 4300 digits: it answers 200 with [rev] [r + 1] and leaves
    [rev] [r + 1] in storage.  (iii) Whenever a write is answered 200 on a
    stored record with [rev] [r], the answer carries [rev] [r + 1] and
    storage holds [rev] [r + 1].  (iv) Over any sequence of requests, each
    under its own environment, the stored [rev] ends at [r] plus the number
    of writes answered 200: each such write adds exactly one, nothing else
    changes it, and so it never decreases.  (For (ii) to (iv) storage must
    be readable; in (iii) and (iv) any other system call may be refused.) *)
Theorem rev_counter :
  (forall e w,
     writes_ok e ->
     files w !! STATE_FILE = None ->
     exists st w',
       load_state e w = (Return (JObj st), w')
       /\ st !! "rev" = Some (JInt 1)
       /\ stored_rev w' = Some 1)
  /\
  (forall rq e w r m,
     writes_ok e ->
     fails e Open = false ->
     storage_parsable w ->
     stored_rev w = Some r ->
     Z.abs (r + 1) < int_limit ->
     payload_of rq = JObj m ->
     accepted (default JNull (m !! "color")) (default JNull (m !! "count")) ->
     exists st w',
       set_state rq e w = (Return (Response 200 (JObj st)), w')
       /\ st !! "rev" = Some (JInt (r + 1))
       /\ stored_rev w' = Some (r + 1))
  /\
  (forall rq e w r out w',
     fails e Open = false ->
     stored_rev w = Some r ->
     set_state rq e w = (Return (Response 200 out), w') ->
     (exists st, out = JObj st /\ st !! "rev" = Some (JInt (r + 1)))
     /\ stored_rev w' = Some (r + 1))
  /\
  (forall trace w r,
     Forall (fun x : env * http_request => fails (fst x) Open = false) trace ->
     stored_rev w = Some r ->
     stored_rev (serve trace w) = Some (r + writes_applied trace w)
     /\ r <= r + writes_applied trace w).
Proof.
  split; [|split; [|split]].
  - intros e w Hok Hnone. rewrite load_state_missing by assumption.
    do 2 eexists. split; [reflexivity|]. split; [reflexivity|].
    apply (stored_rev_of_target _ (default_record (clock e (ticks w)))).
    + apply lookup_insert_eq.
    + reflexivity.
  - intros rq e w r m Hok Ho Hpars Hr Hlt Hp Hv.
    destruct (set_state_increments rq e w r m Hok Ho Hpars Hr Hlt Hp Hv)
      as (st & w' & Hs & Hf & Hst).
    exists (st ∪ {["ok" := JBool true]}), w'. split; [exact Hs|]. split.
    + rewrite lookup_union, Hst. now destruct ({["ok" := JBool true]} !! "rev").
    + now apply (stored_rev_of_target w' st).
  - intros rq e w r out w' Ho Hr Hs.
    destruct (set_state_outcomes rq e w r Ho Hr)
      as [(x & w2 & Hs' & _)|[(msg & Hs')|(st & w2 & Hs' & Hf & Hst)]];
      rewrite Hs' in Hs; try discriminate.
    injection Hs as <- <-. split.
    + eexists. split; [reflexivity|].
      rewrite lookup_union, Hst. now destruct ({["ok" := JBool true]} !! "rev").
    + now apply (stored_rev_of_target w2 st).
  - intros trace w r Hall Hr. split.
    2:{ pose proof (writes_applied_nonneg trace w). lia. }
    revert w r Hall Hr.
    induction trace as [|[e rq] trace IH]; intros w r Hall Hr.
    + cbn. now rewrite Z.add_0_r.
    + inversion Hall as [|? ? He Hrest]; subst. cbn [fst] in He.
      cbn [serve writes_applied].
      rewrite (IH _ _ Hrest (handle_rev_exact rq e w r He Hr)).
      f_equal. lia.
Qed.

Lemma rev_counter_witness :
  (exists st w',
     load_state calm blank = (Return (JObj st), w')
     /\ st !! "rev" = Some (JInt 1) /\ stored_rev w' = Some 1)
  /\
  (exists st w',
     set_state post_blue8 calm with_green3
     = (Return (Response 200 (JObj st)), w')
     /\ st !! "rev" = Some (JInt 3) /\ stored_rev w' = Some 3)
  /\
  stored_rev
    (serve [(calm, GET_api_state);
            (calm, POST_api_state post_blue8);
            (rename_refused,
             POST_api_state
               (post_json (JObj {[ "color" := JStr "#ffffff";
                                   "count" := JInt 1 ]})));
            (calm, POST_api_state (post_json (JArr [JInt 1])))]
           with_green3)
  = Some 3.
Proof.
  destruct rev_counter as (Hfirst & Hwrite & _ & Htrace). split; [|split].
  - apply Hfirst; [repeat split; reflexivity|reflexivity].
  - apply (Hwrite post_blue8 calm with_green3 2
             {[ "color" := JStr "#0000ff"; "count" := JInt 8 ]}).
    + repeat split; reflexivity.
    + reflexivity.
    + intros v Hv. vm_compute in Hv. injection Hv as <-. reflexivity.
    + reflexivity.
    + pose proof int_limit_above_8. cbn. lia.
    + reflexivity.
    + reflexivity.
  - etransitivity.
    + apply (Htrace _ with_green3 2); [repeat constructor|reflexivity].
    + vm_compute. reflexivity.
Defined.

(** ** What ends up in storage, whatever the operating system refuses *)

(** Building and persisting the default record either installs it or
    raises and leaves the target alone. *)
Lemma regenerate_cases e w :
  regenerate e w
  = (Return (JObj (default_record (clock e (ticks w)))),
     World (<[STATE_FILE := JsonText (JObj (default_record (clock e (ticks w))))]>
              (files w))
           (S (ticks w)))
  \/ exists w',
       regenerate e w = (Raise OSError, w')
       /\ files w' !! STATE_FILE = files w !! STATE_FILE.
Proof.
  rewrite regenerate_unfold.
  destruct (atomic_write_cases e (World (files w) (S (ticks w)))
              (JsonText (JObj (default_record (clock e (ticks w))))))
    as [Hw|(w' & Hw & Hk & _)]; rewrite Hw.
  - now left.
  - right. now exists w'.
Qed.

(** [load_state] returns an object or raises; the target is left alone or
    holds the default record afterwards. *)
Lemma load_state_cases e w :
  (exists x w1, load_state e w = (Raise x, w1)
                /\ files w1 !! STATE_FILE = files w !! STATE_FILE)
  \/ (exists st w1, load_state e w = (Return (JObj st), w1)
                    /\ target_kept_or_written w w1).
Proof.
  assert (Hregen :
    forall r w1,
      regenerate e w = (r, w1) ->
      (exists x, r = Raise x /\ files w1 !! STATE_FILE = files w !! STATE_FILE)
      \/ (exists st, r = Return (JObj st) /\ target_kept_or_written w w1)).
  { intros r w1 Hrun.
    destruct (regenerate_cases e w) as [H|(w' & H & Hk)];
      rewrite H in Hrun; injection Hrun as <- <-.
    - right. eexists. split; [reflexivity|]. right. exists (default_record (clock e (ticks w))), 1.
      split; [apply lookup_insert_eq|reflexivity].
    - left. eauto. }
  assert (Hgoal :
    forall r w1, load_state e w = (r, w1) ->
      (exists x, r = Raise x /\ files w1 !! STATE_FILE = files w !! STATE_FILE)
      \/ (exists st, r = Return (JObj st) /\ target_kept_or_written w w1)).
  { intros r w1. unfold load_state. unfold bind at 1. unfold os_makedirs.
    destruct (fails e Makedirs).
    { intros [= <- <-]. left. eauto. }
    unfold bind at 1. unfold os_path_exists.
    destruct (files w !! STATE_FILE) as [t|] eqn:Hf; cbn [negb bool_decide].
    2:{ replace (bool_decide (is_Some (@None text))) with false by reflexivity.
        cbn [negb]. apply Hregen. }
    replace (bool_decide (is_Some (Some t))) with true by reflexivity.
    cbn [negb]. unfold try_except. unfold bind at 1. unfold read_file.
    destruct (fails e Open); [apply Hregen|].
    rewrite Hf. unfold bind at 1. unfold lift at 1.
    destruct t as [v|raw]; cbn [json_load]; [|apply Hregen].
    destruct v; try (cbn; apply Hregen).
    unfold bind, lift. rewrite !dict_setdefault_union. unfold now_iso, ret.
    cbv beta iota. intros [= <- <-]. right. eexists. split; [reflexivity|].
    now left. }
  destruct (load_state e w) as [r w1] eqn:Hl.
  destruct (Hgoal r w1 eq_refl) as [(x & -> & Hk)|(st & -> & Hk)]; eauto 6.
Qed.

Lemma set_state_rev_raises r e w m n st w1 x :
  payload_of r = JObj m ->
  accepted (default JNull (m !! "color")) (default JNull (m !! "count")) ->
  py_int (default JNull (m !! "count")) = Return n ->
  load_state e w = (Return (JObj st), w1) ->
  py_int (default (JInt 1) (st !! "rev")) = Raise x ->
  set_state r e w = (Raise x, w1).
Proof.
  intros Hp Hv Hn Hl Hr. unfold set_state, bind, lift, dict_get.
  rewrite Hp. cbv beta iota. rewrite Hv. cbv beta iota. cbn [negb].
  rewrite Hl. cbn [dict_setitem]. rewrite Hn. cbv beta iota.
  rewrite lookup_insert_ne by discriminate.
  rewrite lookup_insert_ne by discriminate.
  now rewrite Hr.
Qed.

Lemma target_kept_or_written_step w w1 w2 :
  target_kept_or_written w w1 ->
  files w2 !! STATE_FILE = files w1 !! STATE_FILE ->
  target_kept_or_written w w2.
Proof.
  intros [Hk|(st & r & Hf & Hr)] H2.
  - left. congruence.
  - right. exists st, r. split; [congruence|assumption].
Qed.

(** Whatever the request and the environment, [set_state] leaves the
    target alone or leaves in it an object with an integer [rev]. *)
Lemma set_state_target rq e w :
  target_kept_or_written w (snd (set_state rq e w)).
Proof.
  destruct (payload_of_cases rq) as [[m Hp]|(_ & Heq & Hno)].
  2:{ rewrite set_state_not_object; [now left|].
      intros m Hm. apply (Hno m). now rewrite <- Heq. }
  destruct (validate_state_outcomes (default JNull (m !! "color"))
              (default JNull (m !! "count"))) as [Hv|Hv].
  2:{ destruct Hv as [Hv|[Hv|Hv]];
        rewrite (set_state_rejects rq e w m _ Hp Hv); now left. }
  pose proof Hv as Hacc. apply accepted_iff in Hacc as [_ (n & Hn & _)].
  destruct (load_state_cases e w) as [(x & w1 & Hl & Hk)|(st & w1 & Hl & Hk)].
  { rewrite (set_state_load_raises rq e w m x w1 Hp Hv Hl). now left. }
  destruct (py_int (default (JInt 1) (st !! "rev"))) as [rv|x] eqn:Hrv.
  2:{ now rewrite (set_state_rev_raises rq e w m n st w1 x Hp Hv Hn Hl Hrv). }
  rewrite (set_state_valid_run rq e w m n st w1 rv Hp Hv Hn Hl Hrv).
  destruct (serialisable _).
  2:{ now apply (target_kept_or_written_step w w1). }
  match goal with
  | |- context [atomic_write STATE_FILE ?t e ?w0] =>
    destruct (atomic_write_cases e w0 t) as [Hw|(w' & Hw & Hkeep & _)];
      rewrite Hw
  end; cbn [snd].
  - right. do 2 eexists. cbn [files]. split; [apply lookup_insert_eq|].
    rewrite lookup_insert_ne by discriminate. apply lookup_insert_eq.
  - now apply (target_kept_or_written_step w w1).
Qed.

Lemma handle_target rq e w :
  target_kept_or_written w (snd (handle rq e w)).
Proof.
  destruct rq as [|rq|]; cbn [handle].
  - unfold get_state, bind.
    destruct (load_state_cases e w) as [(x & w1 & Hl & Hk)|(st & w1 & Hl & Hk)];
      rewrite Hl; cbn [snd ret]; [now left|assumption].
  - apply set_state_target.
  - now left.
Qed.

Lemma stored_rev_usable_step w w' :
  stored_rev_usable w ->
  target_kept_or_written w w' ->
  stored_rev_usable w'.
Proof.
  intros Huse [Hk|(st & r & Hf & Hr)] m v Hm Hv.
  - rewrite Hk in Hm. now apply (Huse m v).
  - rewrite Hf in Hm. injection Hm as <-. rewrite Hr in Hv.
    injection Hv as <-. now exists r.
Qed.

(** The assumption on the stored [rev] is an invariant of the server: it
    holds of empty storage, and every request keeps it, whatever the
    operating system refuses along the way. *)
Lemma stored_rev_usable_blank : stored_rev_usable blank.
Proof. intros m v Hm. discriminate Hm. Qed.

Lemma stored_rev_usable_invariant trace : forall w,
  stored_rev_usable w -> stored_rev_usable (serve trace w).
Proof.
  induction trace as [|[e rq] trace IH]; intros w Huse; [exact Huse|].
  cbn [serve]. apply IH.
  apply (stored_rev_usable_step w); [exact Huse|apply handle_target].
Qed.

(** ** Worked scenarios *)

(** Empty storage, then [GET /api/state]: the default record, now stored. *)
Example scenario_first_get :
  get_state calm blank
  = (Return (Response 200 (JObj (default_record "2024-05-01T12:00:00+00:00"))),
     World {[ STATE_FILE :=
                JsonText (JObj (default_record "2024-05-01T12:00:00+00:00")) ]} 1).
Proof. vm_compute. reflexivity. Qed.

(** A valid write on [rev] 1 answers with [rev] 2. *)
Example scenario_write_on_rev_1 :
  fst (set_state
         (post_json (JObj {[ "color" := JStr "#00ff00"; "count" := JInt 3 ]}))
         calm (snd (get_state calm blank)))
  = Return (Response 200
      (JObj {[ "ok" := JBool true; "color" := JStr "#00ff00"; "count" := JInt 3;
               "rev" := JInt 2;
               "updated_at" := JStr "2024-05-01T12:00:00+00:00" ]})).
Proof. vm_compute. reflexivity. Qed.

(** A count out of range is refused with the range message. *)
Example scenario_count_out_of_range :
  set_state (post_json (JObj {[ "color" := JStr "#000000"; "count" := JInt 9 ]}))
    calm with_green3
  = (Return (Response 400
       (JObj {[ "ok" := JBool false;
                "error" := JStr "count inválido — debe estar entre 0 y 8" ]})),
     with_green3).
Proof. vm_compute. reflexivity. Qed.

(** A count that is no number is refused with the integer message. *)
Example scenario_count_not_a_number :
  set_state (post_json (JObj {[ "color" := JStr "#000000"; "count" := JStr "three" ]}))
    calm with_green3
  = (Return (Response 400
       (JObj {[ "ok" := JBool false;
                "error" := JStr "count debe ser un número entero" ]})),
     with_green3).
Proof. vm_compute. reflexivity. Qed.

(** A request without a JSON body is refused like an empty object. *)
Example scenario_no_body :
  set_state (Request false (NotJson "")) calm with_green3
  = (Return (Response 400
       (JObj {[ "ok" := JBool false; "error" := JStr msg_color ]})),
     with_green3).
Proof. vm_compute. reflexivity. Qed.

(** What [int()] makes of some strings. *)
Example int_of_strings :
  map PyLong.of_str [ "3"; " 3 "; "+3"; "-0"; "0_3"; "1_0"; "٣";
                      ""; "3.0"; "0x3"; "_3"; "3_"; "3__0"; "+ 3"; "three" ]
  = [ Some 3; Some 3; Some 3; Some 0; Some 3; Some 10; Some 3;
      None; None; None; None; None; None; None; None ].
Proof. vm_compute. reflexivity. Qed.

(** What [int()] makes of some floats: 3.5, -0.5 and 9.0. *)
Example int_of_floats :
  map PyLong.of_float
      [ three_and_a_half; S754_finite true 1 (-1); S754_finite false 9 0;
        S754_nan; S754_infinity false ]
  = [ Return 3; Return 0; Return 9; Raise ValueError; Raise OverflowError ].
Proof. vm_compute. reflexivity. Qed.

(* ===================================================================== *)
(** * Further properties of the code *)
(* ===================================================================== *)

(** ** The shape of [load_state] and [set_state] under any environment *)

(** [load_state] is one of three things: an early [OSError] when the
    directory cannot be made; the regeneration of the default record when
    storage cannot be used; the stored object with the defaults filled in. *)
Lemma load_state_shape e w :
  (fails e Makedirs = true /\ load_state e w = (Raise OSError, w))
  \/ (fails e Makedirs = false /\ unusable e w
      /\ load_state e w = regenerate e w)
  \/ (fails e Makedirs = false /\ fails e Open = false
      /\ exists m, files w !! STATE_FILE = Some (JsonText (JObj m))
                   /\ load_state e w
                      = (Return (JObj (m ∪ default_record (clock e (ticks w)))),
                         World (files w) (S (ticks w)))).
Proof.
  destruct (fails e Makedirs) eqn:Hd.
  { left. split; [reflexivity|]. now apply load_state_makedirs_refused. }
  right.
  destruct (storage_cases e w) as [Hbad|(Ho & m & Hf)].
  - left. split; [reflexivity|]. split; [exact Hbad|].
    unfold load_state. unfold bind at 1. unfold os_makedirs. rewrite Hd.
    unfold bind at 1. unfold os_path_exists.
    destruct Hbad as [Hnone|(t & Hsome & Hbad)].
    + rewrite Hnone. reflexivity.
    + rewrite Hsome.
      replace (bool_decide (is_Some (Some t))) with true by reflexivity.
      cbn [negb]. unfold try_except. fold (regenerate e w).
      unfold bind at 1. unfold read_file.
      destruct (fails e Open) eqn:Ho; [reflexivity|].
      destruct Hbad as [Hbad|Hbad]; [discriminate|].
      rewrite Hsome. unfold bind at 1. unfold lift at 1.
      destruct t as [v|raw]; cbn [json_load]; [|reflexivity].
      destruct v; try reflexivity. discriminate.
  - right. split; [reflexivity|]. split; [exact Ho|]. exists m.
    split; [exact Hf|]. now apply load_state_object.
Qed.

(** [load_state] returns an object when it returns. *)
Lemma load_state_returns_object e w v w1 :
  load_state e w = (Return v, w1) -> exists st, v = JObj st.
Proof.
  destruct (load_state_shape e w)
    as [(_ & H)|[(_ & _ & H)|(_ & _ & m & _ & H)]]; rewrite H.
  - discriminate.
  - rewrite regenerate_unfold.
    destruct (atomic_write _ _ _ _) as [[[]|x] w2]; [|discriminate].
    intros [= <- <-]. eauto.
  - intros [= <- <-]. eauto.
Qed.

(** The record a valid write builds from the loaded one. *)
Lemma set_state_shape rq e w :
  (set_state rq e w = (Raise AttributeError, w)
   /\ forall m, payload_of rq <> JObj m)
  \/ (exists msg,
        set_state rq e w
        = (Return (Response 400
             (JObj {[ "ok" := JBool false; "error" := JStr msg ]})), w))
  \/ (exists m s n,
        payload_of rq = JObj m
        /\ m !! "color" = Some (JStr s)
        /\ Re.matches HEX_COLOR_RE s = true
        /\ py_int (default JNull (m !! "count")) = Return n
        /\ 0 <= n <= 8
        /\ ((exists x w1, load_state e w = (Raise x, w1)
                          /\ set_state rq e w = (Raise x, w1))
            \/ (exists st w1,
                  load_state e w = (Return (JObj st), w1)
                  /\ ((exists x,
                         py_int (default (JInt 1) (st !! "rev")) = Raise x
                         /\ set_state rq e w = (Raise x, w1))
                      \/ (exists rv,
                            py_int (default (JInt 1) (st !! "rev")) = Return rv
                            /\ let st' : gmap string json :=
                                 <["updated_at" := JStr (clock e (ticks w1))]>
                                   (<["rev" := JInt (rv + 1)]>
                                      (<["count" := JInt n]>
                                         (<["color" := JStr s]> st))) in
                               (serialisable (JObj st') = false
                                /\ set_state rq e w
                                   = (Raise ValueError,
                                      World (files w1) (S (ticks w1))))
                               \/ (serialisable (JObj st') = true
                                   /\ set_state rq e w
                                      = match atomic_write STATE_FILE
                                                (JsonText (JObj st')) e
                                                (World (files w1) (S (ticks w1))) with
                                        | (Return _, w2) =>
                                          (Return (Response 200
                                             (JObj (st' ∪ {["ok" := JBool true]}))),
                                           w2)
                                        | (Raise x, w2) => (Raise x, w2)
                                        end)))))).
Proof.
  destruct (payload_of_cases rq) as [[m Hp]|(_ & Heq & Hno)].
  2:{ left. assert (Hno' : forall m, payload_of rq <> JObj m).
      { intros m Hm. apply (Hno m). now rewrite <- Heq. }
      split; [now apply set_state_not_object|exact Hno']. }
  right.
  destruct (validate_state_outcomes (default JNull (m !! "color"))
              (default JNull (m !! "count"))) as [Hv|Hv].
  2:{ left. destruct Hv as [Hv|[Hv|Hv]]; eexists;
        apply (set_state_rejects rq e w m); eassumption. }
  right. pose proof Hv as Hacc.
  apply accepted_iff in Hacc as [(s & Hs & Hmatch) (n & Hn & Hrange)].
  assert (Hc : m !! "color" = Some (JStr s)).
  { destruct (m !! "color"); cbn in Hs; [now subst|discriminate]. }
  exists m, s, n. do 5 (split; [assumption|]).
  destruct (load_state e w) as [[v|x] w1] eqn:Hl.
  2:{ left. exists x, w1. split; [reflexivity|].
      now apply (set_state_load_raises rq e w m). }
  right. destruct (load_state_returns_object e w v w1 Hl) as [st ->].
  exists st, w1. split; [reflexivity|].
  destruct (py_int (default (JInt 1) (st !! "rev"))) as [rv|x] eqn:Hrv.
  - right. exists rv. split; [reflexivity|]. intros st'.
    rewrite (set_state_valid_run rq e w m n st w1 rv Hp Hv Hn Hl Hrv).
    rewrite Hc. cbn [default]. change (id (JStr s)) with (JStr s). fold st'.
    destruct (serialisable (JObj st')); [right|left]; split; reflexivity.
  - left. exists x. split; [reflexivity|].
    now apply (set_state_rev_raises rq e w m n st w1 x).
Qed.

(** ** [atomic_write]: all or nothing *)

Lemma atomic_write_early_refusal e w p t :
  fails e Makedirs = true \/ fails e Mkstemp = true ->
  atomic_write p t e w = (Raise OSError, w).
Proof.
  intros H. unfold atomic_write, bind, os_makedirs, mkstemp.
  destruct (fails e Makedirs); [reflexivity|].
  destruct H as [H|H]; [discriminate|]. now rewrite H.
Qed.

Lemma writes_ok_dec e : writes_ok e \/ ~ writes_ok e.
Proof.
  unfold writes_ok.
  destruct (fails e Makedirs); [right; intros (H & _); discriminate|].
  destruct (fails e Mkstemp); [right; intros (_ & H & _); discriminate|].
  destruct (fails e Write); [right; intros (_ & _ & H & _); discriminate|].
  destruct (fails e Replace); [right; intros (_ & _ & _ & H); discriminate|].
  now left.
Qed.

(** A refused call on the way to the target: [OSError], and the target
    and every file that was there are as before. *)
Lemma atomic_write_refused e w t :
  ~ writes_ok e ->
  exists w',
    atomic_write STATE_FILE t e w = (Raise OSError, w')
    /\ ticks w' = ticks w
    /\ forall q, q = STATE_FILE \/ is_Some (files w !! q) ->
                 files w' !! q = files w !! q.
Proof.
  intros Hno.
  destruct (fails e Makedirs) eqn:Hd.
  { exists w. rewrite atomic_write_early_refusal by auto. auto. }
  destruct (fails e Mkstemp) eqn:Hm.
  { exists w. rewrite atomic_write_early_refusal by auto. auto. }
  destruct (fails e Write) eqn:Hw.
  { destruct (atomic_write_failure_keeps_target e w t) as (w' & H1 & H2 & H3);
      [now left|]. exists w'. auto. }
  destruct (fails e Replace) eqn:Hr.
  { destruct (atomic_write_failure_keeps_target e w t) as (w' & H1 & H2 & H3);
      [now right|]. exists w'. auto. }
  destruct Hno. repeat split; assumption.
Qed.

(** X1.  Whatever the operating system refuses, [atomic_write] on the state
    file ends in one of two ways.  When none of its four calls on the way
    to the target is refused, it returns, the target holds the whole new
    text, every other file is as before and no temporary file is left.
    Otherwise it raises [OSError], and the target and every file that was
    there are as before. *)
Theorem atomic_write_all_or_nothing e w t :
  (writes_ok e
   /\ atomic_write STATE_FILE t e w
      = (Return tt, World (<[STATE_FILE := t]> (files w)) (ticks w)))
  \/ (~ writes_ok e
      /\ exists w',
           atomic_write STATE_FILE t e w = (Raise OSError, w')
           /\ ticks w' = ticks w
           /\ forall q, q = STATE_FILE \/ is_Some (files w !! q) ->
                        files w' !! q = files w !! q).
Proof.
  destruct (writes_ok_dec e) as [Hok|Hno].
  - left. split; [exact Hok|now apply atomic_write_ok].
  - right. split; [exact Hno|now apply atomic_write_refused].
Qed.

(** When the removal of the temporary file is never refused, [atomic_write]
    leaves the temporary files as it found them. *)
Lemma atomic_write_tmp_same e w t :
  fails e Remove = false ->
  forall k, files (snd (atomic_write STATE_FILE t e w)) !! Tmp k
            = files w !! Tmp k.
Proof.
  intros Hrm k.
  destruct (fails e Makedirs) eqn:Hd.
  { now rewrite atomic_write_early_refusal by auto. }
  destruct (fails e Mkstemp) eqn:Hm.
  { now rewrite atomic_write_early_refusal by auto. }
  destruct (fails e Write) eqn:Hw; [|destruct (fails e Replace) eqn:Hr].
  3:{ rewrite atomic_write_ok by (repeat split; assumption).
      cbn [snd files]. now rewrite lookup_insert_ne by discriminate. }
  all: unfold atomic_write, bind, os_makedirs, mkstemp; rewrite Hd, Hm;
    unfold try_finally, write_file, os_replace, os_path_exists,
      try_except_OSError, os_remove; rewrite Hw; cbn.
  - rewrite lookup_insert_eq. cbn. rewrite Hrm, lookup_insert_eq. cbn.
    now rewrite delete_insert_eq, delete_id by apply fresh_tmp_unused.
  - rewrite Hr. cbn. rewrite lookup_insert_eq. cbn.
    rewrite Hrm, lookup_insert_eq. cbn. now rewrite delete_fresh_tmp.
Qed.

(** ** What a 200 from [set_state] means *)

Lemma load_state_ticks e w v w1 :
  load_state e w = (Return v, w1) -> ticks w1 = S (ticks w).
Proof.
  destruct (load_state_shape e w)
    as [(_ & H)|[(_ & _ & H)|(_ & _ & m & _ & H)]]; rewrite H.
  - discriminate.
  - rewrite regenerate_unfold.
    match goal with
    | |- context [atomic_write STATE_FILE ?t e ?w0] =>
      destruct (atomic_write_cases e w0 t) as [Hw|(w' & Hw & _ & _)]; rewrite Hw
    end; [|discriminate].
    now intros [= <- <-].
  - now intros [= <- <-].
Qed.

(** The only way to a 200: a valid payload, a record loaded, a revision
    [int()] accepts, and a write that went through. *)
Lemma set_state_200 rq e w out w' :
  set_state rq e w = (Return (Response 200 out), w') ->
  exists m s n st w1 rv,
    payload_of rq = JObj m
    /\ m !! "color" = Some (JStr s)
    /\ Re.matches HEX_COLOR_RE s = true
    /\ py_int (default JNull (m !! "count")) = Return n
    /\ 0 <= n <= 8
    /\ load_state e w = (Return (JObj st), w1)
    /\ py_int (default (JInt 1) (st !! "rev")) = Return rv
    /\ out = JObj (<["updated_at" := JStr (clock e (ticks w1))]>
                     (<["rev" := JInt (rv + 1)]>
                        (<["count" := JInt n]> (<["color" := JStr s]> st)))
                   ∪ {["ok" := JBool true]})
    /\ w' = World (<[STATE_FILE :=
                       JsonText (JObj (<["updated_at" := JStr (clock e (ticks w1))]>
                                         (<["rev" := JInt (rv + 1)]>
                                            (<["count" := JInt n]>
                                               (<["color" := JStr s]> st)))))]>
                     (files w1))
                  (S (ticks w1)).
Proof.
  intros Hrun.
  destruct (set_state_shape rq e w)
    as [(H & _)|[(msg & H)|(m & s & n & Hp & Hc & Hm & Hn & Hr & Hrest)]].
  { rewrite H in Hrun. discriminate. }
  { rewrite H in Hrun. discriminate. }
  destruct Hrest as [(x & w1 & _ & H)|(st & w1 & Hl & [(x & _ & H)|(rv & Hrv & H)])].
  { rewrite H in Hrun. discriminate. }
  { rewrite H in Hrun. discriminate. }
  cbv zeta in H. destruct H as [(_ & H)|(_ & H)].
  { rewrite H in Hrun. discriminate. }
  rewrite H in Hrun. clear H.
  exists m, s, n, st, w1, rv. do 7 (split; [assumption|]).
  match type of Hrun with
  | context [atomic_write STATE_FILE ?t e ?w0] =>
    destruct (atomic_write_cases e w0 t) as [Hw|(w2 & Hw & _ & _)];
      rewrite Hw in Hrun
  end; [|discriminate].
  injection Hrun as <- <-. split; reflexivity.
Qed.

Lemma written_record_lookup (st : gmap string json) (c n r u : json) :
  let st' := <["updated_at" := u]> (<["rev" := r]> (<["count" := n]>
               (<["color" := c]> st))) in
  st' !! "color" = Some c /\ st' !! "count" = Some n
  /\ st' !! "rev" = Some r /\ st' !! "updated_at" = Some u
  /\ forall k, schema_key k = false -> st' !! k = st !! k.
Proof.
  intros st'. unfold st'. repeat split.
  - rewrite !lookup_insert_ne by discriminate. apply lookup_insert_eq.
  - rewrite !lookup_insert_ne by discriminate. apply lookup_insert_eq.
  - rewrite !lookup_insert_ne by discriminate. apply lookup_insert_eq.
  - apply lookup_insert_eq.
  - intros k Hk. unfold schema_key in Hk.
    repeat (apply orb_false_iff in Hk as [Hk ?]).
    rewrite !lookup_insert_ne; [reflexivity|..];
      intros <-; discriminate.
Qed.

(** X2.  [set_state] never answers 200 without having stored the record:
    after a 200, storage holds a record [st], and the body is [st] with
    ["ok": true] added (a field of [st] named [ok] would win).  That record
    carries the colour of the request, which the pattern matches, the count
    of the request taken through [int()], which lies in [0, 8], an integer
    [rev], and as [updated_at] the second clock reading of the request. *)
Theorem ok_response_is_stored rq e w out w' :
  set_state rq e w = (Return (Response 200 out), w') ->
  exists st m s n r,
    files w' !! STATE_FILE = Some (JsonText (JObj st))
    /\ out = JObj (st ∪ {["ok" := JBool true]})
    /\ payload_of rq = JObj m
    /\ m !! "color" = Some (JStr s) /\ st !! "color" = Some (JStr s)
    /\ Re.matches HEX_COLOR_RE s = true
    /\ py_int (default JNull (m !! "count")) = Return n
    /\ st !! "count" = Some (JInt n) /\ 0 <= n <= 8
    /\ st !! "rev" = Some (JInt r)
    /\ st !! "updated_at" = Some (JStr (clock e (S (ticks w)))).
Proof.
  intros Hrun.
  destruct (set_state_200 rq e w out w' Hrun)
    as (m & s & n & st & w1 & rv & Hp & Hc & Hm & Hn & Hr & Hl & Hrv & -> & ->).
  rewrite (load_state_ticks e w _ w1 Hl).
  destruct (written_record_lookup st (JStr s) (JInt n) (JInt (rv + 1))
              (JStr (clock e (S (ticks w))))) as (L1 & L2 & L3 & L4 & _).
  eexists. exists m, s, n, (rv + 1). cbn [files].
  split; [apply lookup_insert_eq|]. split; [reflexivity|].
  repeat split; try assumption; lia.
Qed.

Lemma ok_response_is_stored_witness :
  exists st m s n r,
    files (snd (set_state post_blue8 calm with_green3)) !! STATE_FILE
    = Some (JsonText (JObj st))
    /\ match fst (set_state post_blue8 calm with_green3) with
       | Return rsp => body rsp
       | Raise _ => JNull
       end = JObj (st ∪ {["ok" := JBool true]})
    /\ payload_of post_blue8 = JObj m
    /\ m !! "color" = Some (JStr s) /\ st !! "color" = Some (JStr s)
    /\ Re.matches HEX_COLOR_RE s = true
    /\ py_int (default JNull (m !! "count")) = Return n
    /\ st !! "count" = Some (JInt n) /\ 0 <= n <= 8
    /\ st !! "rev" = Some (JInt r)
    /\ st !! "updated_at" = Some (JStr (clock calm 1)).
Proof.
  apply (ok_response_is_stored post_blue8 calm with_green3).
  vm_compute. reflexivity.
Defined.

Lemma written_record_complete (st : gmap string json) (c n r u : json) :
  complete (<["updated_at" := u]> (<["rev" := r]> (<["count" := n]>
              (<["color" := c]> st)))).
Proof.
  destruct (written_record_lookup st c n r u) as (L1 & L2 & L3 & L4 & _).
  repeat split; eexists; eassumption.
Qed.

(** X3.  Read your writes: after [set_state] has answered 200, a
    [get_state] that can make the directory and read the file answers 200
    with the record just written, that is, with the body of the write
    without its ["ok": true], and it writes nothing. *)
Theorem get_after_write rq e w out w' e' :
  set_state rq e w = (Return (Response 200 out), w') ->
  fails e' Makedirs = false ->
  fails e' Open = false ->
  exists st,
    get_state e' w'
    = (Return (Response 200 (JObj st)), World (files w') (S (ticks w')))
    /\ out = JObj (st ∪ {["ok" := JBool true]}).
Proof.
  intros Hrun Hd Ho.
  destruct (set_state_200 rq e w out w' Hrun)
    as (m & s & n & st & w1 & rv & _ & _ & _ & _ & _ & _ & _ & -> & ->).
  eexists. split; [|reflexivity].
  unfold get_state, bind.
  rewrite (load_state_object e' _ _ Hd Ho (lookup_insert_eq _ _ _)).
  rewrite backfill_noop by apply written_record_complete.
  reflexivity.
Qed.

Lemma get_after_write_witness :
  exists st,
    get_state calm (snd (set_state post_blue8 calm with_green3))
    = (Return (Response 200 (JObj st)),
       World (files (snd (set_state post_blue8 calm with_green3)))
             (S (ticks (snd (set_state post_blue8 calm with_green3)))))
    /\ match fst (set_state post_blue8 calm with_green3) with
       | Return rsp => body rsp
       | Raise _ => JNull
       end = JObj (st ∪ {["ok" := JBool true]}).
Proof.
  apply (get_after_write post_blue8 calm with_green3 _ _ calm);
    [vm_compute; reflexivity|reflexivity|reflexivity].
Defined.

Lemma schema_key_false k :
  schema_key k = false ->
  k <> "color" /\ k <> "count" /\ k <> "rev" /\ k <> "updated_at".
Proof.
  unfold schema_key. intros H.
  repeat (apply orb_false_iff in H as [H ?]).
  repeat split; intros ->; discriminate.
Qed.

(** When storage holds an object and can be read, what [load_state]
    returns, if it returns, is that object with the defaults filled in. *)
Lemma load_state_of_object e w m0 v w1 :
  files w !! STATE_FILE = Some (JsonText (JObj m0)) ->
  fails e Open = false ->
  load_state e w = (Return v, w1) ->
  v = JObj (m0 ∪ default_record (clock e (ticks w)))
  /\ w1 = World (files w) (S (ticks w)).
Proof.
  intros Hf Ho.
  destruct (load_state_shape e w)
    as [(_ & H)|[(_ & Hbad & _)|(_ & _ & m & Hm & H)]].
  - rewrite H. discriminate.
  - exfalso. destruct Hbad as [Hnone|(t & Ht & [Hopen|Hp])].
    + congruence.
    + congruence.
    + rewrite Hf in Ht. injection Ht as <-. discriminate.
  - rewrite H. rewrite Hf in Hm. injection Hm as <-.
    now intros [= <- <-].
Qed.

(** X4.  A write keeps what it does not set: when storage holds an object
    and can be read, the record stored by a write answered 200 agrees with
    the object previously stored on every field other than [color],
    [count], [rev] and [updated_at]. *)
Theorem write_keeps_other_fields rq e w m0 out w' :
  files w !! STATE_FILE = Some (JsonText (JObj m0)) ->
  fails e Open = false ->
  set_state rq e w = (Return (Response 200 out), w') ->
  exists st,
    files w' !! STATE_FILE = Some (JsonText (JObj st))
    /\ out = JObj (st ∪ {["ok" := JBool true]})
    /\ forall k, schema_key k = false -> st !! k = m0 !! k.
Proof.
  intros Hf Ho Hrun.
  destruct (set_state_200 rq e w out w' Hrun)
    as (m & s & n & st & w1 & rv & _ & _ & _ & _ & _ & Hl & _ & -> & ->).
  destruct (load_state_of_object e w m0 _ w1 Hf Ho Hl) as [[= ->] ->].
  eexists. cbn [files]. split; [apply lookup_insert_eq|].
  split; [reflexivity|]. intros k Hk.
  match goal with
  | |- <[_ := ?u]> (<[_ := ?r]> (<[_ := ?c]> (<[_ := ?a]> ?base))) !! _ = _ =>
    destruct (written_record_lookup base a c r u) as (_ & _ & _ & _ & Hother)
  end.
  rewrite (Hother k Hk), lookup_union.
  destruct (schema_key_false k Hk) as (K1 & K2 & K3 & K4).
  rewrite default_record_other by assumption. now destruct (m0 !! k).
Qed.

Lemma write_keeps_other_fields_witness :
  exists st,
    files (snd (set_state post_blue8 calm green3_labelled)) !! STATE_FILE
    = Some (JsonText (JObj st))
    /\ match fst (set_state post_blue8 calm green3_labelled) with
       | Return rsp => body rsp
       | Raise _ => JNull
       end = JObj (st ∪ {["ok" := JBool true]})
    /\ forall k, schema_key k = false ->
                 st !! k = <["label" := JStr "desk"]> green3 !! k.
Proof.
  apply (write_keeps_other_fields post_blue8 calm green3_labelled);
    [reflexivity|reflexivity|vm_compute; reflexivity].
Defined.

(** X5.  A stored [rev] that [int()] rejects blocks every write and is
    never repaired: with such storage, readable, a request that passes
    validation makes [set_state] raise the error of [int()] (Flask answers
    500) and leaves the files as they were, while [get_state] keeps
    answering 200 with the stored object, bad [rev] included. *)
Theorem unusable_rev_blocks_writes rq e w m m0 v x :
  files w !! STATE_FILE = Some (JsonText (JObj m0)) ->
  m0 !! "rev" = Some v ->
  py_int v = Raise x ->
  fails e Makedirs = false ->
  fails e Open = false ->
  payload_of rq = JObj m ->
  accepted (default JNull (m !! "color")) (default JNull (m !! "count")) ->
  set_state rq e w = (Raise x, World (files w) (S (ticks w)))
  /\ exists st,
       get_state e w
       = (Return (Response 200 (JObj st)), World (files w) (S (ticks w)))
       /\ st !! "rev" = Some v.
Proof.
  intros Hf Hv Hx Hd Ho Hp Hacc.
  pose proof (load_state_object e w m0 Hd Ho Hf) as Hl.
  assert (Hrev : (m0 ∪ default_record (clock e (ticks w))) !! "rev" = Some v).
  { rewrite lookup_union, Hv. now destruct (default_record _ !! "rev"). }
  split.
  - pose proof Hacc as Hacc'.
    apply accepted_iff in Hacc' as [_ (n & Hn & _)].
    apply (set_state_rev_raises rq e w m n _ _ x Hp Hacc Hn Hl).
    now rewrite Hrev.
  - eexists. unfold get_state, bind. rewrite Hl. split; [reflexivity|exact Hrev].
Qed.

Lemma unusable_rev_blocks_writes_witness :
  set_state post_blue8 calm rev_null
  = (Raise TypeError, World (files rev_null) 1)
  /\ exists st,
       get_state calm rev_null
       = (Return (Response 200 (JObj st)), World (files rev_null) 1)
       /\ st !! "rev" = Some JNull.
Proof.
  apply (unusable_rev_blocks_writes post_blue8 calm rev_null
           {[ "color" := JStr "#0000ff"; "count" := JInt 8 ]}
           {[ "rev" := JNull; "label" := JStr "desk" ]} JNull TypeError);
    reflexivity.
Defined.

(** ** Writes and reads on storage that cannot be used *)

Lemma overwritten_default (s t u : string) (n : Z) :
  <["updated_at" := JStr u]>
    (<["rev" := JInt (1 + 1)]>
       (<["count" := JInt n]> (<["color" := JStr s]> (default_record t))))
  = ({[ "color" := JStr s; "count" := JInt n; "rev" := JInt 2;
        "updated_at" := JStr u ]} : gmap string json).
Proof.
  apply map_eq. intros k.
  destruct (decide (k = "updated_at")) as [->|K4]; [reflexivity|].
  destruct (decide (k = "rev")) as [->|K3]; [reflexivity|].
  destruct (decide (k = "count")) as [->|K2]; [reflexivity|].
  destruct (decide (k = "color")) as [->|K1]; [reflexivity|].
  rewrite !lookup_insert_ne by congruence.
  rewrite default_record_other by assumption.
  now rewrite lookup_singleton_ne by congruence.
Qed.

(** X6.  The first write.  When storage is absent or cannot be used and
    writes are honoured, a request that passes validation is answered 200
    with [rev] 2 (the regenerated default record has [rev] 1), and storage
    then holds exactly the four fields: the colour and the count of the
    request, [rev] 2, and the second clock reading of the request. *)
Theorem first_write_from_scratch rq e w m s n :
  writes_ok e ->
  unusable e w ->
  payload_of rq = JObj m ->
  m !! "color" = Some (JStr s) ->
  Re.matches HEX_COLOR_RE s = true ->
  py_int (default JNull (m !! "count")) = Return n ->
  0 <= n <= 8 ->
  let record : gmap string json :=
    {[ "color" := JStr s; "count" := JInt n; "rev" := JInt 2;
       "updated_at" := JStr (clock e (S (ticks w))) ]} in
  set_state rq e w
  = (Return (Response 200 (JObj (record ∪ {["ok" := JBool true]}))),
     World (<[STATE_FILE := JsonText (JObj record)]> (files w))
           (S (S (ticks w)))).
Proof.
  intros Hok Hbad Hp Hc Hs Hn Hrange record.
  assert (Hacc : accepted (default JNull (m !! "color"))
                          (default JNull (m !! "count"))).
  { apply accepted_iff. rewrite Hc. cbn [default]. split; [now exists s|].
    now exists n. }
  assert (Hl : load_state e w = regenerate e w).
  { destruct (load_state_shape e w)
      as [(Hd & _)|[(_ & _ & H)|(_ & Ho & m0 & Hm0 & _)]].
    - destruct Hok as (Hd' & _). congruence.
    - exact H.
    - exfalso. destruct Hbad as [Hnone|(t & Ht & [Hopen|Hpo])].
      + congruence.
      + congruence.
      + rewrite Hm0 in Ht. injection Ht as <-. discriminate. }
  rewrite regenerate_ok in Hl by assumption.
  rewrite (set_state_valid_run rq e w m n _ _ 1 Hp Hacc Hn Hl eq_refl).
  cbn [files ticks]. rewrite Hc. cbn [default].
  change (id (JStr s)) with (JStr s).
  rewrite written_record_serialisable;
    [|apply default_record_serialisable|assumption|
     pose proof int_limit_above_8; lia].
  rewrite atomic_write_ok by assumption. cbn [files ticks].
  rewrite overwritten_default, insert_insert_eq. reflexivity.
Qed.

Lemma first_write_from_scratch_witness :
  let record : gmap string json :=
    {[ "color" := JStr "#0000ff"; "count" := JInt 8; "rev" := JInt 2;
       "updated_at" := JStr "2024-05-01T12:00:00+00:00" ]} in
  set_state post_blue8 calm truncated
  = (Return (Response 200 (JObj (record ∪ {["ok" := JBool true]}))),
     World {[ STATE_FILE := JsonText (JObj record) ]} 2).
Proof.
  intros record.
  apply (first_write_from_scratch post_blue8 calm truncated
           {[ "color" := JStr "#0000ff"; "count" := JInt 8 ]} "#0000ff" 8).
  - repeat split; reflexivity.
  - right. exists (NotJson "{"). split; [reflexivity|right; reflexivity].
  - reflexivity.
  - reflexivity.
  - reflexivity.
  - reflexivity.
  - lia.
Defined.

(** X7.  When [get_state] fails.  It raises [OSError] (Flask answers 500)
    exactly when the directory cannot be made, or storage cannot be used
    and one of the calls needed to persist the default record is refused;
    the target is then as before.  In every other case it answers 200 with
    a record that has all four fields. *)
Theorem get_state_outcome e w :
  ((fails e Makedirs = true \/ (unusable e w /\ ~ writes_ok e))
   /\ exists w', get_state e w = (Raise OSError, w')
                 /\ files w' !! STATE_FILE = files w !! STATE_FILE)
  \/ (~ (fails e Makedirs = true \/ (unusable e w /\ ~ writes_ok e))
      /\ exists st w',
           get_state e w = (Return (Response 200 (JObj st)), w')
           /\ complete st).
Proof.
  unfold get_state, bind.
  destruct (load_state_shape e w)
    as [(Hd & H)|[(Hd & Hbad & H)|(Hd & Ho & m & Hm & H)]]; rewrite H.
  - left. split; [now left|]. now exists w.
  - rewrite regenerate_unfold.
    destruct (writes_ok_dec e) as [Hok|Hno];
      [rewrite atomic_write_ok by assumption|
       match goal with
       | |- context [atomic_write STATE_FILE ?t e ?w0] =>
         destruct (atomic_write_refused e w0 t Hno) as (w' & Hw & _ & Hkeep);
           rewrite Hw
       end].
    + right. split.
      * intros [Hd'|(_ & Hno)]; [congruence|now apply Hno].
      * do 2 eexists. split; [reflexivity|apply default_record_complete].
    + left. split; [right; now split|]. exists w'. split; [reflexivity|].
      apply (Hkeep STATE_FILE). now left.
  - right. split.
    + intros [Hd'|(Hbad & _)]; [congruence|].
      destruct Hbad as [Hnone|(t & Ht & [Hopen|Hp])].
      * congruence.
      * congruence.
      * rewrite Hm in Ht. injection Ht as <-. discriminate.
    + do 2 eexists. split; [reflexivity|apply backfill_complete].
Qed.

(** ** Invariants of the server, under any environment *)

Lemma store_valid_same_target w w' :
  files w' !! STATE_FILE = files w !! STATE_FILE ->
  store_valid w -> store_valid w'.
Proof. unfold store_valid. now intros ->. Qed.

Lemma default_record_valid t : valid_record (default_record t).
Proof.
  repeat split.
  - exists "#ff0000". split; reflexivity.
  - exists 0. split; [reflexivity|unfold LED_MIN, LED_MAX; lia].
  - exists 1. split; [reflexivity|lia].
  - now exists t.
Qed.

(** What is in storage after [atomic_write] was asked to store a valid
    record is valid, whether the write went through or not. *)
Lemma atomic_write_valid e w st :
  store_valid w ->
  valid_record st ->
  store_valid (snd (atomic_write STATE_FILE (JsonText (JObj st)) e w)).
Proof.
  intros Hw Hst.
  destruct (atomic_write_cases e w (JsonText (JObj st)))
    as [H|(w' & H & Hk & _)]; rewrite H; cbn [snd].
  - right. exists st. cbn [files]. split; [apply lookup_insert_eq|exact Hst].
  - now apply (store_valid_same_target w).
Qed.

Lemma store_valid_tick w :
  store_valid w -> store_valid (World (files w) (S (ticks w))).
Proof. now apply store_valid_same_target. Qed.

Lemma snd_regenerate e w :
  snd (regenerate e w)
  = snd (atomic_write STATE_FILE
           (JsonText (JObj (default_record (clock e (ticks w))))) e
           (World (files w) (S (ticks w)))).
Proof.
  rewrite regenerate_unfold.
  now destruct (atomic_write _ _ _ _) as [[[]|x] w2].
Qed.

(** [load_state] keeps storage valid, and the record it returns from valid
    storage has an integer [rev] of at least 1. *)
Lemma load_state_valid e w :
  store_valid w ->
  store_valid (snd (load_state e w))
  /\ forall st w1, load_state e w = (Return (JObj st), w1) ->
                   exists r, st !! "rev" = Some (JInt r) /\ 1 <= r.
Proof.
  intros Hw.
  destruct (load_state_shape e w)
    as [(_ & H)|[(_ & _ & H)|(_ & _ & m & Hm & H)]]; rewrite H.
  - split; [exact Hw|discriminate].
  - split.
    + rewrite snd_regenerate.
      apply atomic_write_valid; [now apply store_valid_tick|].
      apply default_record_valid.
    + intros st w1. rewrite regenerate_unfold.
      destruct (atomic_write _ _ _ _) as [[[]|x] w2]; [|discriminate].
      intros [= <- <-]. exists 1. split; [reflexivity|lia].
  - split; [now apply store_valid_tick|].
    intros st w1 [= <- <-].
    destruct Hw as [Hnone|(m' & Hm' & _ & _ & (r & Hr & Hge) & _)]; [congruence|].
    rewrite Hm in Hm'. injection Hm' as <-.
    exists r. split; [|exact Hge].
    rewrite lookup_union, Hr. now destruct (default_record _ !! "rev").
Qed.

Lemma set_state_valid rq e w :
  store_valid w -> store_valid (snd (set_state rq e w)).
Proof.
  intros Hw. destruct (load_state_valid e w Hw) as [Hload Hrev].
  destruct (set_state_shape rq e w)
    as [(H & _)|[(msg & H)|(m & s & n & Hp & Hc & Hm & Hn & Hr & Hrest)]].
  { now rewrite H. }
  { now rewrite H. }
  destruct Hrest as [(x & w1 & Hl & H)|(st & w1 & Hl & [(x & _ & H)|(rv & Hrv & H)])];
    try (cbv zeta in H; destruct H as [(_ & H)|(_ & H)]);
    rewrite H; rewrite Hl in Hload; cbn [snd] in Hload |- *; try exact Hload.
  destruct (Hrev st w1 Hl) as (r & Hst & Hge).
  rewrite Hst in Hrv. cbn in Hrv. injection Hrv as <-.
  match goal with
  | |- store_valid (snd (match ?aw with _ => _ end)) =>
    replace (snd (match aw with
                  | (Return _, w2) => (_, w2)
                  | (Raise x, w2) => (Raise x, w2)
                  end)) with (snd aw)
      by now destruct aw as [[[]|?] ?]
  end.
  apply atomic_write_valid; [now apply store_valid_tick|].
  match goal with
  | |- valid_record (<[_ := ?u]> (<[_ := ?rr]> (<[_ := ?c]> (<[_ := ?a]> ?base)))) =>
    destruct (written_record_lookup base a c rr u) as (L1 & L2 & L3 & L4 & _)
  end.
  repeat split.
  - exists s. now split.
  - exists n. split; [assumption|unfold LED_MIN, LED_MAX; lia].
  - exists (r + 1). split; [assumption|lia].
  - eexists. eassumption.
Qed.

Lemma handle_valid rq e w :
  store_valid w -> store_valid (snd (handle rq e w)).
Proof.
  intros Hw. destruct rq as [|rq|]; cbn [handle].
  - unfold get_state, bind. destruct (load_state_valid e w Hw) as [H _].
    destruct (load_state e w) as [[v|x] w1]; exact H.
  - now apply set_state_valid.
  - now apply store_valid_tick.
Qed.

(** X8.  Storage stays valid.  If storage is absent or holds a record as
    the program writes it (a colour the pattern matches, an integer count
    in [0, 8], an integer [rev] of at least 1, a string [updated_at]), then
    so it is after any sequence of requests, whatever their bodies and
    whatever the operating system refuses along the way. *)
Theorem store_stays_valid trace : forall w,
  store_valid w -> store_valid (serve trace w).
Proof.
  induction trace as [|[e rq] trace IH]; intros w Hw; [exact Hw|].
  cbn [serve]. apply IH. now apply handle_valid.
Qed.

Lemma store_stays_valid_witness :
  store_valid
    (serve [(calm, POST_api_state post_blue8);
            (rename_refused, GET_api_state);
            (mkstemp_refused, POST_api_state (post_json (JArr [JInt 1])));
            (calm, POST_api_state
                     (post_json (JObj {[ "color" := JStr "#ffffff";
                                         "count" := JFloat three_and_a_half ]})))]
           blank).
Proof.
  apply store_stays_valid. left. reflexivity.
Defined.

(** ** The assumptions of a successful write *)

(** The first assumption, that the stored document is one [json.load]
    reads, is an invariant of the server: it holds of empty storage, and
    every request keeps it, whatever the operating system refuses, because
    nothing reaches [atomic_write] that [json.dumps] has not accepted. *)
Lemma storage_parsable_same_target w w' :
  files w' !! STATE_FILE = files w !! STATE_FILE ->
  storage_parsable w -> storage_parsable w'.
Proof. unfold storage_parsable. now intros ->. Qed.

Lemma atomic_write_parsable e w v :
  storage_parsable w ->
  serialisable v = true ->
  storage_parsable (snd (atomic_write STATE_FILE (JsonText v) e w)).
Proof.
  intros Hw Hv.
  destruct (atomic_write_cases e w (JsonText v))
    as [H|(w' & H & Hk & _)]; rewrite H; cbn [snd].
  - intros v' Hv'. cbn [files] in Hv'. rewrite lookup_insert_eq in Hv'.
    now injection Hv' as <-.
  - now apply (storage_parsable_same_target w).
Qed.

Lemma load_state_parsable e w :
  storage_parsable w -> storage_parsable (snd (load_state e w)).
Proof.
  intros Hw.
  destruct (load_state_shape e w)
    as [(_ & H)|[(_ & _ & H)|(_ & _ & m & Hm & H)]]; rewrite H.
  - exact Hw.
  - rewrite snd_regenerate.
    apply atomic_write_parsable; [exact Hw|apply default_record_serialisable].
  - exact Hw.
Qed.

Lemma set_state_parsable rq e w :
  storage_parsable w -> storage_parsable (snd (set_state rq e w)).
Proof.
  intros Hw. pose proof (load_state_parsable e w Hw) as Hload.
  destruct (set_state_shape rq e w)
    as [(H & _)|[(msg & H)|(m & s & n & _ & _ & _ & _ & _ & Hrest)]].
  { now rewrite H. }
  { now rewrite H. }
  destruct Hrest as [(x & w1 & Hl & H)|(st & w1 & Hl & [(x & _ & H)|(rv & _ & H)])];
    try (cbv zeta in H; destruct H as [(_ & H)|(Hser & H)]);
    rewrite H; rewrite Hl in Hload; cbn [snd] in Hload |- *; try exact Hload.
  match goal with
  | |- storage_parsable (snd (match ?aw with _ => _ end)) =>
    replace (snd (match aw with
                  | (Return _, w2) => (_, w2)
                  | (Raise x, w2) => (Raise x, w2)
                  end)) with (snd aw)
      by now destruct aw as [[[]|?] ?]
  end.
  now apply atomic_write_parsable.
Qed.

Lemma handle_parsable rq e w :
  storage_parsable w -> storage_parsable (snd (handle rq e w)).
Proof.
  intros Hw. destruct rq as [|rq|]; cbn [handle].
  - unfold get_state, bind. pose proof (load_state_parsable e w Hw) as H.
    destruct (load_state e w) as [[v|x] w1]; exact H.
  - now apply set_state_parsable.
  - exact Hw.
Qed.

Lemma storage_parsable_blank : storage_parsable blank.
Proof. intros v Hv. discriminate Hv. Qed.

Lemma storage_parsable_invariant trace : forall w,
  storage_parsable w -> storage_parsable (serve trace w).
Proof.
  induction trace as [|[e rq] trace IH]; intros w Hw; [exact Hw|].
  cbn [serve]. apply IH. now apply handle_parsable.
Qed.

(** The second assumption, room for one more revision, holds of empty
    storage and of storage with an integer [rev] below the limit, and it
    lasts for as many requests as there is room. *)
Lemma stored_rev_has_room_blank : stored_rev_has_room blank.
Proof. intros m v Hm. discriminate Hm. Qed.

Lemma stored_rev_has_room_of_rev w r :
  stored_rev w = Some r ->
  Z.abs (r + 1) < int_limit ->
  stored_rev_has_room w.
Proof.
  intros Hr Hlt m v Hm Hv.
  destruct (stored_rev_object w r Hr) as (m' & Hm' & Hr').
  rewrite Hm in Hm'. injection Hm' as <-. rewrite Hv in Hr'.
  injection Hr' as ->. now exists r.
Qed.

Lemma writes_applied_le_length trace : forall w,
  writes_applied trace w <= Z.of_nat (length trace).
Proof.
  induction trace as [|[e rq] trace IH]; intros w; [reflexivity|].
  cbn [writes_applied length]. specialize (IH (snd (handle rq e w))).
  destruct rq; try lia.
  destruct (fst (handle (POST_api_state r) e w)) as [rsp|x]; [|lia].
  destruct (status rsp =? 200); lia.
Qed.

Lemma serve_rev_exact trace : forall w r,
  Forall (fun x : env * http_request => fails (fst x) Open = false) trace ->
  stored_rev w = Some r ->
  stored_rev (serve trace w) = Some (r + writes_applied trace w).
Proof.
  induction trace as [|[e rq] trace IH]; intros w r Hall Hr.
  - cbn. now rewrite Z.add_0_r.
  - inversion Hall as [|? ? He Hrest]; subst. cbn [fst] in He.
    cbn [serve writes_applied].
    rewrite (IH _ _ Hrest (handle_rev_exact rq e w r He Hr)).
    f_equal. lia.
Qed.

Lemma stored_rev_has_room_after trace w r :
  Forall (fun x : env * http_request => fails (fst x) Open = false) trace ->
  stored_rev w = Some r ->
  0 <= r ->
  r + Z.of_nat (length trace) + 1 < int_limit ->
  stored_rev_has_room (serve trace w).
Proof.
  intros Hall Hr Hpos Hlt.
  apply (stored_rev_has_room_of_rev _ (r + writes_applied trace w)).
  - now apply serve_rev_exact.
  - pose proof (writes_applied_nonneg trace w).
    pose proof (writes_applied_le_length trace w). lia.
Qed.

(** X9.  [rev] counts the writes.  From storage holding a record with
    integer [rev] [r], and as long as storage can be read, the stored [rev]
    after any sequence of requests is [r] plus the number of
    [POST /api/state] requests that were answered 200: reads, health
    checks, refused writes and writes that failed leave it alone. *)
Theorem rev_counts_writes trace : forall w r,
  Forall (fun x : env * http_request => fails (fst x) Open = false) trace ->
  stored_rev w = Some r ->
  stored_rev (serve trace w) = Some (r + writes_applied trace w).
Proof.
  induction trace as [|[e rq] trace IH]; intros w r Hall Hr.
  - cbn. now rewrite Z.add_0_r.
  - inversion Hall as [|? ? He Hrest]; subst. cbn [fst] in He.
    cbn [serve writes_applied].
    rewrite (IH _ _ Hrest (handle_rev_exact rq e w r He Hr)).
    f_equal. lia.
Qed.

Lemma rev_counts_writes_witness :
  stored_rev
    (serve [(calm, GET_api_state);
            (calm, POST_api_state post_blue8);
            (calm, POST_api_state
                     (post_json (JObj {[ "color" := JStr "blue";
                                         "count" := JInt 3 ]})));
            (rename_refused, POST_api_state post_blue8);
            (calm, GET_api_health);
            (calm, POST_api_state post_blue8)]
           with_green3)
  = Some 4.
Proof.
  etransitivity.
  - apply (rev_counts_writes _ with_green3 2); [repeat constructor|reflexivity].
  - vm_compute. reflexivity.
Defined.

(** One request leaves the temporary files as they were when the removal
    of a temporary file is not refused. *)
Lemma load_state_tmp_same e w :
  fails e Remove = false ->
  forall k, files (snd (load_state e w)) !! Tmp k = files w !! Tmp k.
Proof.
  intros Hrm k.
  destruct (load_state_shape e w)
    as [(_ & H)|[(_ & _ & H)|(_ & _ & m & _ & H)]]; rewrite H;
    [reflexivity| |reflexivity].
  rewrite snd_regenerate. now rewrite atomic_write_tmp_same.
Qed.

Lemma set_state_tmp_same rq e w :
  fails e Remove = false ->
  forall k, files (snd (set_state rq e w)) !! Tmp k = files w !! Tmp k.
Proof.
  intros Hrm k. pose proof (load_state_tmp_same e w Hrm k) as Hload.
  destruct (set_state_shape rq e w)
    as [(H & _)|[(msg & H)|(m & s & n & _ & _ & _ & _ & _ & Hrest)]].
  { now rewrite H. }
  { now rewrite H. }
  destruct Hrest as [(x & w1 & Hl & H)|(st & w1 & Hl & [(x & _ & H)|(rv & _ & H)])];
    try (cbv zeta in H; destruct H as [(_ & H)|(_ & H)]);
    rewrite H; rewrite Hl in Hload; cbn [snd] in Hload |- *; try exact Hload.
  match goal with
  | |- files (snd (match ?aw with _ => _ end)) !! _ = _ =>
    replace (snd (match aw with
                  | (Return _, w2) => (_, w2)
                  | (Raise x, w2) => (Raise x, w2)
                  end)) with (snd aw)
      by now destruct aw as [[[]|?] ?]
  end.
  now rewrite atomic_write_tmp_same.
Qed.

Lemma handle_tmp_same rq e w :
  fails e Remove = false ->
  forall k, files (snd (handle rq e w)) !! Tmp k = files w !! Tmp k.
Proof.
  intros Hrm k. destruct rq as [|rq|]; cbn [handle].
  - unfold get_state, bind. pose proof (load_state_tmp_same e w Hrm k) as H.
    destruct (load_state e w) as [[v|x] w1]; exact H.
  - now apply set_state_tmp_same.
  - reflexivity.
Qed.

(** X10.  No temporary file is left behind.  As long as the removal of a
    temporary file is never refused, any sequence of requests leaves the
    temporary files of the directory exactly as they were, whatever else
    is refused: a directory without temporary files stays without. *)
Theorem temporary_files_untouched trace : forall w,
  Forall (fun x : env * http_request => fails (fst x) Remove = false) trace ->
  (forall k, files (serve trace w) !! Tmp k = files w !! Tmp k)
  /\ (no_temp_files w -> no_temp_files (serve trace w)).
Proof.
  assert (Hsame : forall w,
            Forall (fun x : env * http_request => fails (fst x) Remove = false) trace ->
            forall k, files (serve trace w) !! Tmp k = files w !! Tmp k).
  { induction trace as [|[e rq] trace IH]; intros w Hall k; [reflexivity|].
    inversion Hall as [|? ? He Hrest]; subst. cbn [fst] in He.
    cbn [serve]. rewrite (IH _ Hrest k). now apply handle_tmp_same. }
  intros w Hall. split; [now apply Hsame|].
  intros Hno k. rewrite (Hsame w Hall k). apply Hno.
Qed.

Lemma temporary_files_untouched_witness :
  no_temp_files
    (serve [(rename_refused, POST_api_state post_blue8);
            (mkstemp_refused, GET_api_state);
            (calm, POST_api_state post_blue8)]
           truncated).
Proof.
  apply (temporary_files_untouched
           [(rename_refused, POST_api_state post_blue8);
            (mkstemp_refused, GET_api_state);
            (calm, POST_api_state post_blue8)] truncated).
  - repeat constructor.
  - intros k. apply lookup_singleton_ne. discriminate.
Defined.

(** ** Validation, seen from the request *)

(** X11.  The colours that pass.  The colour check of [validate_state]
    passes exactly for a string made of [#] and six hex digits, in either
    case, optionally followed by one line feed; every other string and
    every value that is not a string gets the colour message, whatever the
    count. *)
Theorem accepted_colours color :
  (color_matches color = true
   <-> exists s, color = JStr s
                 /\ (Spec.is_rrggbb s = true
                     \/ exists s0, Spec.is_rrggbb s0 = true /\ s = s0 +:+ LF))
  /\ (color_matches color = false ->
      forall count, validate_state color count = (false, msg_color)).
Proof.
  split.
  - destruct color as [| | | |s| |]; cbn [color_matches];
      try (split; [discriminate|intros (s & [=] & _)]).
    rewrite HEX_COLOR_RE_matches. split.
    + intros H. now exists s.
    + now intros (s' & [= <-] & H).
  - intros H count. now apply validate_state_bad_color.
Qed.

(** X12.  The two count messages.  With a payload whose colour passes,
    [set_state] answers 400 and leaves the world alone: with
    ["count debe ser un número entero"] when [int(count)] raises, in
    particular when the payload has no count; with
    ["count inválido — debe estar entre 0 y 8"] when [int(count)] lies
    outside [0, 8]. *)
Theorem invalid_count_reasons r e w m s :
  payload_of r = JObj m ->
  m !! "color" = Some (JStr s) ->
  Re.matches HEX_COLOR_RE s = true ->
  (forall x, py_int (default JNull (m !! "count")) = Raise x ->
     set_state r e w
     = (Return (Response 400
          (JObj {[ "ok" := JBool false;
                   "error" := JStr "count debe ser un número entero" ]})), w))
  /\ (m !! "count" = None ->
      set_state r e w
      = (Return (Response 400
           (JObj {[ "ok" := JBool false;
                    "error" := JStr "count debe ser un número entero" ]})), w))
  /\ (forall n, py_int (default JNull (m !! "count")) = Return n ->
        n < 0 \/ 8 < n ->
        set_state r e w
        = (Return (Response 400
             (JObj {[ "ok" := JBool false;
                      "error" := JStr "count inválido — debe estar entre 0 y 8" ]})),
           w)).
Proof.
  intros Hp Hc Hs.
  assert (Hint : forall x, py_int (default JNull (m !! "count")) = Raise x ->
            validate_state (default JNull (m !! "color"))
              (default JNull (m !! "count")) = (false, msg_count_int)).
  { intros x Hx. unfold validate_state. rewrite Hc. cbn [default].
    change (id (JStr s)) with (JStr s).
    cbn [isinstance_str color_matches negb orb]. rewrite Hs. cbn [negb].
    now rewrite Hx. }
  split; [|split].
  - intros x Hx. apply (set_state_rejects r e w m); [assumption|].
    now apply (Hint x).
  - intros Hnone. apply (set_state_rejects r e w m); [assumption|].
    apply (Hint TypeError). now rewrite Hnone.
  - intros n Hn Hout. apply (set_state_rejects r e w m); [assumption|].
    unfold validate_state. rewrite Hc. cbn [default].
    change (id (JStr s)) with (JStr s).
    cbn [isinstance_str color_matches negb orb]. rewrite Hs. cbn [negb].
    rewrite Hn. unfold LED_MIN, LED_MAX.
    replace ((0 <=? n) && (n <=? 8)) with false; [reflexivity|].
    symmetry. apply andb_false_iff.
    destruct Hout; [left; apply Z.leb_gt|right; apply Z.leb_gt]; lia.
Qed.

Lemma invalid_count_reasons_witness :
  set_state (post_json (JObj {[ "color" := JStr "#0000ff" ]})) calm with_green3
  = (Return (Response 400
       (JObj {[ "ok" := JBool false;
                "error" := JStr "count debe ser un número entero" ]})),
     with_green3).
Proof.
  apply (invalid_count_reasons
           (post_json (JObj {[ "color" := JStr "#0000ff" ]})) calm with_green3
           {[ "color" := JStr "#0000ff" ]} "#0000ff");
    reflexivity.
Defined.

(** ** Start-up *)

(** X13.  The start-up settings.  Without [PORT] the port is 5000; with
    [PORT] set, the port is what [int()] makes of it, for a string of
    digits the number it denotes, and a value [int()] rejects raises
    [ValueError] before anything else runs.  Debug mode is off exactly when
    [FLASK_ENV] is the string [production]; unset, it is on. *)
Theorem main_config_outcome environ :
  let debug := negb (bool_decide (environ !! "FLASK_ENV" = Some "production")) in
  (environ !! "PORT" = None -> main_config environ = Return (5000, debug))
  /\ (forall s n, environ !! "PORT" = Some s -> PyLong.of_str s = Some n ->
        main_config environ = Return (n, debug))
  /\ (forall s, environ !! "PORT" = Some s ->
        Spec.digit_string s = true ->
        (String.length s <= PyLong.max_str_digits)%nat ->
        main_config environ = Return (Spec.decimal_value s, debug))
  /\ (forall s, environ !! "PORT" = Some s -> PyLong.of_str s = None ->
        main_config environ = Raise ValueError)
  /\ (debug = false <-> environ !! "FLASK_ENV" = Some "production")
  /\ (environ !! "FLASK_ENV" = None -> debug = true).
Proof.
  intros debug. unfold main_config. fold debug.
  split; [|split; [|split; [|split; [|split]]]].
  - now intros ->.
  - intros s n -> Hn. cbn. now rewrite Hn.
  - intros s -> Hd Hlen. cbn. now rewrite of_str_digit_string.
  - intros s -> Hn. cbn. now rewrite Hn.
  - unfold debug. rewrite negb_false_iff. apply bool_decide_eq_true.
  - intros Hnone. unfold debug. rewrite Hnone. reflexivity.
Qed.

Lemma main_config_outcome_witness :
  main_config {[ "PORT" := "8080"; "FLASK_ENV" := "production" ]}
  = Return (8080, false)
  /\ main_config ∅ = Return (5000, true)
  /\ main_config {[ "PORT" := "http" ]} = Raise ValueError.
Proof.
  split; [|split].
  - etransitivity.
    + apply (proj1 (proj2 (proj2
        (main_config_outcome {[ "PORT" := "8080"; "FLASK_ENV" := "production" ]})))
        "8080");
        [reflexivity|reflexivity|unfold PyLong.max_str_digits; cbn; lia].
    + vm_compute. reflexivity.
  - etransitivity.
    + apply (proj1 (main_config_outcome ∅)). reflexivity.
    + vm_compute. reflexivity.
  - apply (proj1 (proj2 (proj2 (proj2
      (main_config_outcome {[ "PORT" := "http" ]})))) "http"); reflexivity.
Defined.
